(** * CircuLoop: the disposal-strategy classifier and the campus inventory

    A shallow embedding of [CircuLoop.py].  Python attributes are dynamically
    typed, so an attribute holds a [value]; an operation that the interpreter
    would abort with an exception yields [Raise].  The program never catches
    an exception: a raise ends the run, hence no state is kept after one.
    Calls to [print] produce console text only and are left out.  An asset
    is the record of its twelve data attributes; a call that would give an
    asset another shape, by binding a method name or a name of [object] on
    it, is [Outside], except for the replacement of [__dict__] by a dict of
    the twelve, which [update_asset_dict] describes. *)

From Stdlib Require Import List String Ascii Bool ZArith QArith Lia Lqa.
From Stdlib Require Import DecimalString DecimalPos DecimalN Sorted.
Import ListNotations.

Local Open Scope Z_scope.
Local Open Scope string_scope.
Local Open Scope list_scope.

(** ** Enumerations *)

Inductive DeviceCategory :=
| LAPTOP | LAB_EQUIPMENT | CONSUMABLE | APPLIANCE | PERIPHERAL.

Definition DeviceCategory_value (c : DeviceCategory) : string :=
  match c with
  | LAPTOP => "Laptop"
  | LAB_EQUIPMENT => "Lab Equipment"
  | CONSUMABLE => "Consumable"
  | APPLIANCE => "Appliance"
  | PERIPHERAL => "Peripheral"
  end.

Inductive DisposalStrategy :=
| RELOCATE | REPURPOSE | MARKETPLACE | STRIP_COMPONENTS | RECYCLE
| HAZARDOUS_DISPOSAL.

Definition DisposalStrategy_value (d : DisposalStrategy) : string :=
  match d with
  | RELOCATE => "Relocate to Permanent Campus"
  | REPURPOSE => "Repurpose/Upcycle for Labs"
  | MARKETPLACE => "Sell on Marketplace"
  | STRIP_COMPONENTS => "Strip for Components"
  | RECYCLE => "Responsible Recycling"
  | HAZARDOUS_DISPOSAL => "Hazardous Material Disposal"
  end.

Definition DisposalStrategy_eqb (a b : DisposalStrategy) : bool :=
  match a, b with
  | RELOCATE, RELOCATE | REPURPOSE, REPURPOSE | MARKETPLACE, MARKETPLACE
  | STRIP_COMPONENTS, STRIP_COMPONENTS | RECYCLE, RECYCLE
  | HAZARDOUS_DISPOSAL, HAZARDOUS_DISPOSAL => true
  | _, _ => false
  end.

(** ** Python values *)

(** A float: a finite one is a rational, besides the infinities and nan. *)
Inductive number :=
| Fin (q : Q)
| Inf (negative : bool)
| NaN.

(** A reading of the clock, [datetime.datetime.now()]. *)
Definition datetime := Z.

Inductive value :=
| VNone
| VBool (b : bool)
| VInt (z : Z)
| VFloat (x : number)
| VStr (s : string)
| VDatetime (t : datetime)
| VStrategy (d : DisposalStrategy).

Inductive exn := TypeError | AttributeError | KeyError.

(** What a call comes to: a value, an exception, or [Outside] when the
    call runs into Python that this file does not describe (an attribute
    name that [object] may provide, an object the records cannot hold);
    nothing is said of a call that is [Outside]. *)
Inductive result (A : Type) :=
| Ok (a : A)
| Raise (e : exn)
| Outside.
Arguments Ok {A} a.
Arguments Raise {A} e.
Arguments Outside {A}.

Definition bind {A B} (m : result A) (k : A -> result B) : result B :=
  match m with
  | Ok a => k a
  | Raise e => Raise e
  | Outside => Outside
  end.

Declare Scope py_scope.
Delimit Scope py_scope with py.
Notation "x <- m ;; k" := (bind m (fun x => k))
  (at level 61, m at next level, right associativity) : py_scope.
Notation "' p <- m ;; k" := (bind m (fun x => let p := x in k))
  (at level 61, p pattern, m at next level, right associativity) : py_scope.

(** [a and b] where both sides may raise: [b] is evaluated only when [a]
    holds. *)
Definition and_then (a b : result bool) : result bool :=
  bind a (fun x => if x then b else Ok false).
Infix "&&&" := and_then (at level 40, left associativity) : py_scope.

Local Open Scope py_scope.

(** bool is a subclass of int; int and float compare by numeric value. *)
Definition as_number (v : value) : option number :=
  match v with
  | VBool b => Some (Fin (inject_Z (if b then 1 else 0)))
  | VInt z => Some (Fin (inject_Z z))
  | VFloat x => Some x
  | _ => None
  end.

Definition Qltb (x y : Q) : bool := negb (Qle_bool y x).

(** [v < n] and [v > n] for an int literal [n]; a non-number raises. *)
Definition lt_int (v : value) (n : Z) : result bool :=
  match as_number v with
  | Some (Fin q) => Ok (Qltb q (inject_Z n))
  | Some (Inf negative) => Ok negative
  | Some NaN => Ok false
  | None => Raise TypeError
  end.

Definition gt_int (v : value) (n : Z) : result bool :=
  match as_number v with
  | Some (Fin q) => Ok (Qltb (inject_Z n) q)
  | Some (Inf negative) => Ok (negb negative)
  | Some NaN => Ok false
  | None => Raise TypeError
  end.

Definition number_eqb (x y : number) : bool :=
  match x, y with
  | Fin p, Fin q => Qeq_bool p q
  | Inf a, Inf b => Bool.eqb a b
  | _, _ => false
  end.

(** [a == b]; never raises. *)
Definition py_eq (a b : value) : bool :=
  match as_number a, as_number b with
  | Some x, Some y => number_eqb x y
  | None, None =>
      match a, b with
      | VNone, VNone => true
      | VStr s, VStr t => String.eqb s t
      | VDatetime s, VDatetime t => Z.eqb s t
      | VStrategy d, VStrategy e => DisposalStrategy_eqb d e
      | _, _ => false
      end
  | _, _ => false
  end.

Definition py_ne (a b : value) : bool := negb (py_eq a b).

(** Truth value of an object used as a condition. *)
Definition truthy (v : value) : bool :=
  match v with
  | VNone => false
  | VBool b => b
  | VInt z => negb (Z.eqb z 0)
  | VFloat (Fin q) => negb (Qeq_bool q 0)
  | VFloat _ => true
  | VStr s => negb (String.eqb s EmptyString)
  | VDatetime _ => true
  | VStrategy _ => true
  end.

(** ** CampusAsset *)

Record CampusAsset := mkAsset {
  asset_id : value;
  name : value;
  model : value;
  category : value;
  age_years : value;
  battery_health : value;
  can_refurbish : value;
  is_hazardous : value;
  status : value;
  location : value;
  last_used : value;
  disposal_strategy : value
}.

Definition evaluate_disposal_strategy (self : CampusAsset)
  : result DisposalStrategy :=
  if truthy (is_hazardous self) then Ok HAZARDOUS_DISPOSAL
  else
    young <- lt_int (age_years self) 3
             &&& gt_int (battery_health self) 70
             &&& Ok (truthy (can_refurbish self)) ;;
    if young then Ok RELOCATE
    else
      moderate <- Ok (truthy (can_refurbish self))
                  &&& lt_int (age_years self) 5
                  &&& gt_int (battery_health self) 40 ;;
      if moderate then Ok MARKETPLACE
      else if py_eq (category self)
                    (VStr (DeviceCategory_value LAB_EQUIPMENT))
              && truthy (can_refurbish self)
      then Ok REPURPOSE
      else
        strip <- Ok (negb (truthy (can_refurbish self)))
                 &&& lt_int (age_years self) 7 ;;
        if strip then Ok STRIP_COMPONENTS else Ok RECYCLE.

(** [CampusAsset.__init__] *)
Definition CampusAsset_init
  (asset_id name model category age_years battery_health can_refurbish
     is_hazardous : value) : result CampusAsset :=
  let self :=
    mkAsset asset_id name model category age_years battery_health
      can_refurbish is_hazardous (VStr "Dormant") (VStr "Storage") VNone VNone
  in
  d <- evaluate_disposal_strategy self ;;
  Ok (mkAsset asset_id name model category age_years battery_health
        can_refurbish is_hazardous (VStr "Dormant") (VStr "Storage") VNone
        (VStrategy d)).

(** The attributes [__init__] binds on an instance. *)
Inductive field :=
| f_asset_id | f_name | f_model | f_category | f_age_years
| f_battery_health | f_can_refurbish | f_is_hazardous | f_status
| f_location | f_last_used | f_disposal_strategy.

Definition field_name (f : field) : string :=
  match f with
  | f_asset_id => "asset_id"
  | f_name => "name"
  | f_model => "model"
  | f_category => "category"
  | f_age_years => "age_years"
  | f_battery_health => "battery_health"
  | f_can_refurbish => "can_refurbish"
  | f_is_hazardous => "is_hazardous"
  | f_status => "status"
  | f_location => "location"
  | f_last_used => "last_used"
  | f_disposal_strategy => "disposal_strategy"
  end.

Definition all_fields : list field :=
  [f_asset_id; f_name; f_model; f_category; f_age_years; f_battery_health;
   f_can_refurbish; f_is_hazardous; f_status; f_location; f_last_used;
   f_disposal_strategy].

Definition field_of_name (key : string) : option field :=
  find (fun f => String.eqb (field_name f) key) all_fields.

(** The methods the class binds under a plain name. *)
Definition method_names : list string :=
  ["evaluate_disposal_strategy"; "update_status"; "to_dict"].

(** How a name resolves on an asset: to one of its twelve data attributes,
    to a method of the class, or to nothing.  A name that begins with two
    underscores may be one of those the class and [object] provide
    ([__init__], [__str__], [__dict__], [__class__], [__doc__], ...), whose
    list and behaviour vary with the interpreter: such a name is
    [Special], and a call that resolves one is [Outside]. *)
Inductive resolution :=
| Field (f : field)
| Method
| Missing
| Special.

Definition resolve (key : string) : resolution :=
  match field_of_name key with
  | Some f => Field f
  | None =>
      if existsb (String.eqb key) method_names then Method
      else if String.prefix "__" key then Special
      else Missing
  end.

Definition hasattr (self : CampusAsset) (key : string) : result bool :=
  match resolve key with
  | Field _ | Method => Ok true
  | Missing => Ok false
  | Special => Outside
  end.

Definition getattr (self : CampusAsset) (f : field) : value :=
  match f with
  | f_asset_id => asset_id self
  | f_name => name self
  | f_model => model self
  | f_category => category self
  | f_age_years => age_years self
  | f_battery_health => battery_health self
  | f_can_refurbish => can_refurbish self
  | f_is_hazardous => is_hazardous self
  | f_status => status self
  | f_location => location self
  | f_last_used => last_used self
  | f_disposal_strategy => disposal_strategy self
  end.

Definition setattr (self : CampusAsset) (f : field) (v : value)
  : CampusAsset :=
  let '(mkAsset i n m c a b r h s l u d) := self in
  match f with
  | f_asset_id => mkAsset v n m c a b r h s l u d
  | f_name => mkAsset i v m c a b r h s l u d
  | f_model => mkAsset i n v c a b r h s l u d
  | f_category => mkAsset i n m v a b r h s l u d
  | f_age_years => mkAsset i n m c v b r h s l u d
  | f_battery_health => mkAsset i n m c a v r h s l u d
  | f_can_refurbish => mkAsset i n m c a b v h s l u d
  | f_is_hazardous => mkAsset i n m c a b r v s l u d
  | f_status => mkAsset i n m c a b r h v l u d
  | f_location => mkAsset i n m c a b r h s v u d
  | f_last_used => mkAsset i n m c a b r h s l v d
  | f_disposal_strategy => mkAsset i n m c a b r h s l u v
  end.

(** [setattr(asset, key, value)] under a name: binding a method name on
    the instance gives an object with one more attribute, which the record
    cannot hold. *)
Definition setattr_name (self : CampusAsset) (key : string) (v : value)
  : result CampusAsset :=
  match resolve key with
  | Field f => Ok (setattr self f v)
  | _ => Outside
  end.

(** [getattr(asset, key) != value] under a name: a bound method differs
    from every [value]. *)
Definition attr_differs (self : CampusAsset) (key : string) (v : value)
  : result bool :=
  match resolve key with
  | Field f => Ok (py_ne (getattr self f) v)
  | Method => Ok true
  | _ => Outside
  end.

(** [CampusAsset.update_status]; [now] is the clock reading. *)
Definition update_status (now : datetime) (new_status : value)
  (self : CampusAsset) : CampusAsset :=
  let self := setattr self f_status new_status in
  if py_eq new_status (VStr "In Use")
  then setattr self f_last_used (VDatetime now)
  else self.

(** [x.value]: only an enumeration member has it. *)
Definition enum_value (x : value) : result string :=
  match x with
  | VStrategy d => Ok (DisposalStrategy_value d)
  | _ => Raise AttributeError
  end.

Definition to_dict (self : CampusAsset) : result (list (string * value)) :=
  s <- enum_value (disposal_strategy self) ;;
  Ok [("asset_id", asset_id self);
      ("name", name self);
      ("model", model self);
      ("category", category self);
      ("age_years", age_years self);
      ("battery_health", battery_health self);
      ("can_refurbish", can_refurbish self);
      ("is_hazardous", is_hazardous self);
      ("status", status self);
      ("location", location self);
      ("disposal_strategy", VStr s)].

(** ** Dictionaries and lists

    A dict keeps its keys in insertion order: an association list with one
    entry per key. *)
Section Dict.
Context {V : Type}.

Fixpoint dict_get (d : list (string * V)) (k : string) : option V :=
  match d with
  | [] => None
  | (k', v) :: d' => if String.eqb k' k then Some v else dict_get d' k
  end.

Definition dict_contains (d : list (string * V)) (k : string) : bool :=
  match dict_get d k with
  | Some _ => true
  | None => false
  end.

(** [d[k] = v]: an existing key keeps its place. *)
Fixpoint dict_set (d : list (string * V)) (k : string) (v : V)
  : list (string * V) :=
  match d with
  | [] => [(k, v)]
  | (k', v') :: d' =>
      if String.eqb k' k then (k', v) :: d'
      else (k', v') :: dict_set d' k v
  end.

(** [del d[k]] *)
Fixpoint dict_del (d : list (string * V)) (k : string)
  : list (string * V) :=
  match d with
  | [] => []
  | (k', v') :: d' =>
      if String.eqb k' k then d' else (k', v') :: dict_del d' k
  end.

Definition dict_keys (d : list (string * V)) : list string := map fst d.
Definition dict_values (d : list (string * V)) : list V := map snd d.
End Dict.

(** [x in l] *)
Definition list_contains (l : list value) (x : value) : bool :=
  existsb (fun y => py_eq y x) l.

(** [l.remove(x)] drops the first item equal to [x]. *)
Fixpoint list_remove (l : list value) (x : value) : list value :=
  match l with
  | [] => []
  | y :: l' => if py_eq y x then l' else y :: list_remove l' x
  end.

Fixpoint zeros (k : nat) : string :=
  match k with
  | O => EmptyString
  | S k' => String "0" (zeros k')
  end.

(** [s.zfill(width)] for a string of digits *)
Definition zfill (width : nat) (s : string) : string :=
  (zeros (width - String.length s) ++ s)%string.

(** [f"{z:04d}"]: the sign counts towards the four columns. *)
Definition format_04d (z : Z) : string :=
  if Z.ltb z 0
  then ("-" ++ zfill 3 (NilZero.string_of_uint (N.to_uint (Z.abs_N z))))%string
  else zfill 4 (NilZero.string_of_uint (N.to_uint (Z.to_N z))).

(** Reading a string of digits back as a number. *)
Definition parse_decimal (s : string) : option N :=
  option_map N.of_uint (NilEmpty.uint_of_string s).

(** Lower-casing of ASCII letters, an instance of [str.lower]. *)
Definition ascii_lower (c : ascii) : ascii :=
  let n := nat_of_ascii c in
  if ((65 <=? n) && (n <=? 90))%nat then ascii_of_nat (n + 32) else c.

Fixpoint lower_ascii (s : string) : string :=
  match s with
  | EmptyString => EmptyString
  | String c s' => String (ascii_lower c) (lower_ascii s')
  end.

(** The time stamp as a decimal count, standing in for
    [datetime.isoformat]. *)
Definition isoformat_decimal (t : datetime) : string := format_04d t.

(** A loop whose body may raise, collecting what each round yields. *)
Fixpoint map_result {A B} (f : A -> result B) (l : list A)
  : result (list B) :=
  match l with
  | [] => Ok []
  | x :: l' => y <- f x ;; ys <- map_result f l' ;; Ok (y :: ys)
  end.

Fixpoint fold_result {A B} (f : B -> A -> result B) (l : list A) (acc : B)
  : result B :=
  match l with
  | [] => Ok acc
  | x :: l' => acc' <- f acc x ;; fold_result f l' acc'
  end.

(** The record [export_to_json] hands to [json.dump]. *)
#[warnings="-register-all"] Inductive json :=
| JAtom (v : value)
| JList (l : list value)
| JDict (d : list (string * json)).

(** ** CampusInventory *)

Record CampusInventory := mkInventory {
  assets : list (string * CampusAsset);
  next_id : Z;
  marketplace_items : list value;
  components_library : list value
}.

(** [CampusInventory.__init__] *)
Definition CampusInventory_init : CampusInventory := mkInventory [] 1 [] [].

Definition _process_asset (asset : CampusAsset) (self : CampusInventory)
  : CampusInventory :=
  if py_eq (disposal_strategy asset) (VStrategy MARKETPLACE)
  then mkInventory (assets self) (next_id self)
         (marketplace_items self ++ [asset_id asset])
         (components_library self)
  else self.

Definition add_asset
  (name model category age_years battery_health can_refurbish
     is_hazardous : value) (self : CampusInventory)
  : result (string * CampusInventory) :=
  let asset_id := ("ASSET-" ++ format_04d (next_id self))%string in
  let self := mkInventory (assets self) (next_id self + 1)
                (marketplace_items self) (components_library self) in
  asset <- CampusAsset_init (VStr asset_id) name model category age_years
             battery_health can_refurbish is_hazardous ;;
  let self := mkInventory (dict_set (assets self) asset_id asset)
                (next_id self) (marketplace_items self)
                (components_library self) in
  let self := _process_asset asset self in
  Ok (asset_id, self).

Definition delete_asset (asset_id : string) (self : CampusInventory)
  : result (bool * CampusInventory) :=
  if dict_contains (assets self) asset_id then
    let self := mkInventory (dict_del (assets self) asset_id) (next_id self)
                  (marketplace_items self) (components_library self) in
    let self :=
      if list_contains (marketplace_items self) (VStr asset_id)
      then mkInventory (assets self) (next_id self)
             (list_remove (marketplace_items self) (VStr asset_id))
             (components_library self)
      else self in
    Ok (true, self)
  else Ok (false, self).

(** Whether a keyword of the call bears the name of one of the parameters
    the method declares: the call then raises before the body runs. *)
Definition binds_parameter (parameters : list string)
  (kwargs : list (string * value)) : bool :=
  existsb (fun key => existsb (String.eqb key) parameters) (map fst kwargs).

(** The loop of [update_asset]: [setattr] for each key the asset has. *)
Fixpoint apply_kwargs (asset : CampusAsset) (kwargs : list (string * value))
  : result CampusAsset :=
  match kwargs with
  | [] => Ok asset
  | (key, v) :: rest =>
      has <- hasattr asset key ;;
      if has then
        asset' <- setattr_name asset key v ;;
        apply_kwargs asset' rest
      else apply_kwargs asset rest
  end.

(** The asset is an object the dict refers to: mutating it leaves the dict
    entry in place. *)
Definition update_asset (asset_id : string) (kwargs : list (string * value))
  (self : CampusInventory) : result (bool * CampusInventory) :=
  if binds_parameter ["self"; "asset_id"] kwargs then Raise TypeError
  else
    match dict_get (assets self) asset_id with
    | None => Ok (false, self)
    | Some asset =>
        asset <- apply_kwargs asset kwargs ;;
        d <- evaluate_disposal_strategy asset ;;
        let asset := setattr asset f_disposal_strategy (VStrategy d) in
        Ok (true,
            mkInventory (dict_set (assets self) asset_id asset)
              (next_id self) (marketplace_items self)
              (components_library self))
    end.



Definition get_asset (asset_id : string) (self : CampusInventory)
  : result (option CampusAsset * CampusInventory) :=
  Ok (dict_get (assets self) asset_id, self).

(** The inner loop of [search_assets]: [false] is the [break]. *)
Fixpoint criteria_match (asset : CampusAsset)
  (criteria : list (string * value)) : result bool :=
  match criteria with
  | [] => Ok true
  | (key, v) :: rest =>
      has <- hasattr asset key ;;
      if has then
        differs <- attr_differs asset key v ;;
        if differs then Ok false else criteria_match asset rest
      else criteria_match asset rest
  end.

Definition search_assets (criteria : list (string * value))
  (self : CampusInventory) : result (list CampusAsset * CampusInventory) :=
  if binds_parameter ["self"] criteria then Raise TypeError
  else
    results <-
      fold_result
        (fun results asset =>
           matched <- criteria_match asset criteria ;;
           Ok (if matched then results ++ [asset] else results))
        (dict_values (assets self)) [] ;;
    Ok (results, self).

(** [show_marketplace] prints one entry per listed identifier; the assets
    printed are returned here.  [self.assets[item_id]] raises on a key the
    dict lacks. *)
Definition show_marketplace (self : CampusInventory)
  : result (list CampusAsset * CampusInventory) :=
  shown <- map_result
             (fun item_id =>
                match item_id with
                | VStr k =>
                    match dict_get (assets self) k with
                    | Some asset => Ok asset
                    | None => Raise KeyError
                    end
                | _ => Raise KeyError
                end)
             (marketplace_items self) ;;
  Ok (shown, self).

(** [generate_migration_report] prints the groups it builds; they are
    returned here. *)
Definition generate_migration_report (self : CampusInventory)
  : result (list (string * list CampusAsset) * CampusInventory) :=
  strategies <-
    fold_result
      (fun strategies asset =>
         strategy <- enum_value (disposal_strategy asset) ;;
         let strategies :=
           if dict_contains strategies strategy then strategies
           else dict_set strategies strategy [] in
         match dict_get strategies strategy with
         | Some group => Ok (dict_set strategies strategy (group ++ [asset]))
         | None => Raise KeyError
         end)
      (dict_values (assets self)) [] ;;
  Ok (strategies, self).

(** Requests a caller can make of an inventory, and what comes back. *)
Inductive request :=
| AddAsset (name model category age_years battery_health can_refurbish
              is_hazardous : value)
| UpdateAsset (asset_id : string) (kwargs : list (string * value))
| DeleteAsset (asset_id : string)
| GetAsset (asset_id : string)
| SearchAssets (criteria : list (string * value))
| CheckProcurementPrevention (device_name : string) (device_category : value)
| ShowMarketplace
| GenerateMigrationReport
| ExportToJson (now : datetime).

Inductive response :=
| RId (asset_id : string)
| RBool (b : bool)
| RAsset (asset : option CampusAsset)
| RAssets (l : list CampusAsset)
| RMatches (l : option (list CampusAsset))
| RReport (groups : list (string * list CampusAsset))
| RData (data : json).

Section Inventory.
(** Library functions the inventory calls: [str.lower] and
    [datetime.isoformat]. *)
Variable str_lower : string -> string.
Variable isoformat : datetime -> string.

(** [x.lower()]: only a string has it. *)
Definition lower (x : value) : result string :=
  match x with
  | VStr s => Ok (str_lower s)
  | _ => Raise AttributeError
  end.

(** The comprehension of [check_procurement_prevention]. *)
Fixpoint dormant_matches (device_name : string) (device_category : value)
  (l : list CampusAsset) : result (list CampusAsset) :=
  match l with
  | [] => Ok []
  | asset :: rest =>
      n <- lower (name asset) ;;
      let keep := String.eqb n (str_lower device_name)
                  && py_eq (status asset) (VStr "Dormant")
                  && py_eq (category asset) device_category in
      ms <- dormant_matches device_name device_category rest ;;
      Ok (if keep then asset :: ms else ms)
  end.

(** A non-empty list of matches is returned; otherwise [None]. *)
Definition check_procurement_prevention (device_name : string)
  (device_category : value) (self : CampusInventory)
  : result (option (list CampusAsset) * CampusInventory) :=
  ms <- dormant_matches device_name device_category
          (dict_values (assets self)) ;;
  match ms with
  | _ :: _ => Ok (Some ms, self)
  | [] => Ok (None, self)
  end.

(** The test the specification gives for a dormant match: the names agree
    up to case, the status is "Dormant", the category is the one asked. *)
Definition is_dormant_match (device_name : string) (device_category : value)
  (asset : CampusAsset) : bool :=
  match name asset with
  | VStr n => String.eqb (str_lower n) (str_lower device_name)
  | _ => false
  end
  && py_eq (status asset) (VStr "Dormant")
  && py_eq (category asset) device_category.

(** The [data] of [export_to_json], which [json.dump] then writes to the
    file. *)
Definition export_to_json (now : datetime) (self : CampusInventory)
  : result (json * CampusInventory) :=
  dicts <- map_result
             (fun '(aid, asset) =>
                d <- to_dict asset ;;
                Ok (aid, JDict (map (fun '(k, v) => (k, JAtom v)) d)))
             (assets self) ;;
  Ok (JDict [("assets", JDict dicts);
             ("marketplace", JList (marketplace_items self));
             ("timestamp", JAtom (VStr (isoformat now)))],
      self).

Definition answer {A} (wrap : A -> response)
  (r : result (A * CampusInventory))
  : result (response * CampusInventory) :=
  '(a, self) <- r ;; Ok (wrap a, self).

(** One call of a public method. *)
Definition perform (q : request) (self : CampusInventory)
  : result (response * CampusInventory) :=
  match q with
  | AddAsset n m c a b r h => answer RId (add_asset n m c a b r h self)
  | UpdateAsset i kwargs => answer RBool (update_asset i kwargs self)
  | DeleteAsset i => answer RBool (delete_asset i self)
  | GetAsset i => answer RAsset (get_asset i self)
  | SearchAssets criteria => answer RAssets (search_assets criteria self)
  | CheckProcurementPrevention n c =>
      answer RMatches (check_procurement_prevention n c self)
  | ShowMarketplace => answer RAssets (show_marketplace self)
  | GenerateMigrationReport =>
      answer RReport (generate_migration_report self)
  | ExportToJson now => answer RData (export_to_json now self)
  end.

(** The inventories a run can be in: the fresh one, and what a completed
    call leaves.  A call that is [Outside] gives no step: nothing is said
    of a run past such a call. *)
Inductive reachable : CampusInventory -> Prop :=
| reachable_init : reachable CampusInventory_init
| reachable_step q self r self' :
    reachable self ->
    perform q self = Ok (r, self') ->
    reachable self'.
End Inventory.

(** ** What the specification says, in its own words *)

(** Whether a decided proposition holds. *)
Definition holds {A B : Prop} (d : {A} + {B}) : bool :=
  if d then true else false.

(** The six rules of the classifier, the first that applies deciding. *)
Definition classify (isHazardous : bool) (ageYears : Q) (batteryHealth : Z)
  (canRefurbish : bool) (category : string) : DisposalStrategy :=
  if isHazardous then HAZARDOUS_DISPOSAL
  else if holds (Qlt_le_dec ageYears 3) && holds (Z_lt_dec 70 batteryHealth)
          && canRefurbish
  then RELOCATE
  else if canRefurbish && holds (Qlt_le_dec ageYears 5)
          && holds (Z_lt_dec 40 batteryHealth)
  then MARKETPLACE
  else if holds (string_dec category (DeviceCategory_value LAB_EQUIPMENT))
          && canRefurbish
  then REPURPOSE
  else if negb canRefurbish && holds (Qlt_le_dec ageYears 7)
  then STRIP_COMPONENTS
  else RECYCLE.

(** The stored strategy is what the classifier gives for the attributes the
    asset has now. *)
Definition strategy_current (asset : CampusAsset) : Prop :=
  exists d, evaluate_disposal_strategy asset = Ok d
            /\ disposal_strategy asset = VStrategy d.

Definition all_current (self : CampusInventory) : Prop :=
  Forall strategy_current (dict_values (assets self)).


(** The names this file follows through [hasattr]: not [Special], and not
    the parameter [self] of the methods. *)
Definition plain_name (key : string) : bool :=
  negb (String.eqb key "self")
  && match resolve key with
     | Special => false
     | _ => true
     end.

Definition plain_names (kwargs : list (string * value)) : Prop :=
  Forall (fun c => plain_name (fst c) = true) kwargs.


(** A criterion as the loop treats it: a data attribute must equal the
    value, a method never does, a name the asset lacks is passed over. *)
Definition criterion_holds (asset : CampusAsset) (c : string * value)
  : bool :=
  match resolve (fst c) with
  | Field f => py_eq (getattr asset f) (snd c)
  | Method => false
  | _ => true
  end.

Definition is_str (v : value) : Prop := exists s, v = VStr s.

(** The stored identifier of every asset is the key it is filed under. *)
Definition ids_match (self : CampusInventory) : Prop :=
  forall k asset,
    dict_get (assets self) k = Some asset -> asset_id asset = VStr k.

(** The requests that only look the inventory up. *)
Definition read_only (q : request) : bool :=
  match q with
  | AddAsset _ _ _ _ _ _ _ | UpdateAsset _ _ | DeleteAsset _ => false
  | _ => true
  end.

Definition touches_marketplace (q : request) : bool :=
  match q with
  | AddAsset _ _ _ _ _ _ _ | DeleteAsset _ => true
  | _ => false
  end.

(** The flat record of an asset as the snapshot holds it: every attribute
    but [last_used], the strategy as its display string. *)
Definition flat_record (asset : CampusAsset) (d : DisposalStrategy)
  : list (string * json) :=
  map (fun f =>
         (field_name f,
          JAtom match f with
                | f_disposal_strategy => VStr (DisposalStrategy_value d)
                | _ => getattr asset f
                end))
    [f_asset_id; f_name; f_model; f_category; f_age_years; f_battery_health;
     f_can_refurbish; f_is_hazardous; f_status; f_location;
     f_disposal_strategy].

Definition strategy_of (asset : CampusAsset) : DisposalStrategy :=
  match disposal_strategy asset with
  | VStrategy d => d
  | _ => RECYCLE
  end.

(** What holds of every inventory a run can be in. *)
Record well_formed (self : CampusInventory) : Prop := {
  wf_next_id : 1 <= next_id self;
  wf_keys :
    forall k, In k (dict_keys (assets self)) ->
      exists n, 1 <= n < next_id self
                /\ k = ("ASSET-" ++ format_04d n)%string;
  wf_keys_nodup : NoDup (dict_keys (assets self));
  wf_marketplace :
    forall v, In v (marketplace_items self) ->
      exists k, v = VStr k /\ In k (dict_keys (assets self));
  wf_marketplace_nodup : NoDup (marketplace_items self);
  wf_current : all_current self
}.

(** ** Sample inventories *)

Definition laptop : CampusAsset :=
  mkAsset (VStr "ASSET-0001") (VStr "Laptop") (VStr "ThinkPad X1")
    (VStr "Laptop") (VFloat (Fin (3 # 2))) (VInt 85) (VBool true)
    (VBool false) (VStr "Dormant") (VStr "Storage") VNone
    (VStrategy RELOCATE).

Definition one_laptop : CampusInventory :=
  mkInventory [("ASSET-0001", laptop)] 2 [] [].

Definition macbook : CampusAsset :=
  mkAsset (VStr "ASSET-0001") (VStr "MacBook Pro") (VStr "M1-2021")
    (VStr "Laptop") (VFloat (Fin 4)) (VInt 90) (VBool true)
    (VBool false) (VStr "Dormant") (VStr "Storage") VNone
    (VStrategy MARKETPLACE).

Definition one_macbook : CampusInventory :=
  mkInventory [("ASSET-0001", macbook)] 2 [VStr "ASSET-0001"] [].

(** ** Runs of calls *)

Section Runs.
Variable str_lower : string -> string.
Variable isoformat : datetime -> string.

(** The calls of a session, one after the other; a raise ends it. *)
Fixpoint run (qs : list request) (self : CampusInventory)
  : result (list response * CampusInventory) :=
  match qs with
  | [] => Ok ([], self)
  | q :: qs' =>
      '(r, self1) <- perform str_lower isoformat q self ;;
      '(rs, self2) <- run qs' self1 ;;
      Ok (r :: rs, self2)
  end.
End Runs.

(** The identifiers [add_asset] handed out among the responses of a run. *)
Definition returned_ids (rs : list response) : list string :=
  flat_map (fun r => match r with RId i => [i] | _ => [] end) rs.

(** The display string the report files an asset under. *)
Definition strategy_display (asset : CampusAsset) : string :=
  DisposalStrategy_value (strategy_of asset).

(** The asset [__init__] builds, before the classifier has run. *)
Definition new_asset (aid : string)
  (n m c a b r h : value) (d : value) : CampusAsset :=
  mkAsset (VStr aid) n m c a b r h (VStr "Dormant") (VStr "Storage") VNone d.

(** ** The classifier *)

Lemma Qltb_holds (x y : Q) : Qltb x y = holds (Qlt_le_dec x y).
Proof.
  unfold Qltb, holds.
  destruct (Qlt_le_dec x y) as [Hlt | Hle].
  - destruct (Qle_bool y x) eqn:E; [|reflexivity].
    apply Qle_bool_iff in E. exfalso. exact (Qlt_not_le _ _ Hlt E).
  - apply Qle_bool_iff in Hle. now rewrite Hle.
Qed.

Lemma Qltb_inject_Z (a b : Z) :
  Qltb (inject_Z a) (inject_Z b) = holds (Z_lt_dec a b).
Proof.
  rewrite Qltb_holds. unfold holds.
  destruct (Qlt_le_dec (inject_Z a) (inject_Z b)) as [H | H];
    destruct (Z_lt_dec a b) as [H' | H']; try reflexivity; exfalso.
  - apply H'. now rewrite Zlt_Qlt.
  - rewrite Zlt_Qlt in H'. exact (Qlt_not_le _ _ H' H).
Qed.

Lemma string_eqb_holds (s t : string) :
  String.eqb s t = holds (string_dec s t).
Proof.
  unfold holds. destruct (string_dec s t) as [-> | H].
  - apply String.eqb_refl.
  - now apply String.eqb_neq.
Qed.

Lemma evaluate_typed h q b r cat i n m s l u d :
  evaluate_disposal_strategy
    (mkAsset i n m (VStr cat) (VFloat (Fin q)) (VInt b) (VBool r) (VBool h)
       s l u d)
  = Ok (classify h q b r cat).
Proof.
  unfold evaluate_disposal_strategy, classify, lt_int, gt_int, and_then, bind,
    py_eq; cbn [is_hazardous age_years battery_health can_refurbish category
                  truthy as_number].
  rewrite !Qltb_inject_Z, !Qltb_holds, string_eqb_holds.
  unfold inject_Z.
  destruct h; [reflexivity|].
  destruct r;
    repeat match goal with
           | |- context [holds ?c] => destruct (holds c)
           end; reflexivity.
Qed.

(** C1.  The classifier is a total function of the five attributes: on a
    hazard flag, an age, a battery health, a refurbishable flag and a
    category it returns the strategy of the first of the six rules that
    applies, whatever the other attributes are; the comparisons are strict,
    so an age of exactly 3, 5 or 7 and a battery health of exactly 70 or 40
    fall to the next rule. *)
Theorem evaluate_disposal_strategy_first_match :
  (forall h q b r cat i n m s l u d,
      evaluate_disposal_strategy
        (mkAsset i n m (VStr cat) (VFloat (Fin q)) (VInt b) (VBool r)
           (VBool h) s l u d)
      = Ok (classify h q b r cat))
  /\ (forall h z b r cat i n m s l u d,
         evaluate_disposal_strategy
           (mkAsset i n m (VStr cat) (VInt z) (VInt b) (VBool r) (VBool h)
              s l u d)
         = Ok (classify h (inject_Z z) b r cat))
  /\ (forall q b r cat, classify true q b r cat = HAZARDOUS_DISPOSAL)
  /\ (forall cat, classify false 3 71 true cat = MARKETPLACE)
  /\ (forall cat, classify false 2 70 true cat = MARKETPLACE)
  /\ classify false 5 90 true "Laptop" = RECYCLE
  /\ classify false 5 90 true "Lab Equipment" = REPURPOSE
  /\ classify false 4 40 true "Laptop" = RECYCLE
  /\ (forall b cat, classify false 7 b false cat = RECYCLE)
  /\ (forall b cat, classify false (699 # 100) b false cat = STRIP_COMPONENTS)
  /\ (forall cat, classify false (299 # 100) 71 true cat = RELOCATE).
Proof.
  split; [exact evaluate_typed|].
  split.
  { intros. unfold evaluate_disposal_strategy, lt_int, gt_int, and_then, bind,
      py_eq; cbn [is_hazardous age_years battery_health can_refurbish
                    category truthy as_number].
    pose proof (evaluate_typed h (inject_Z z) b r cat i n m s l u d) as E.
    unfold evaluate_disposal_strategy, lt_int, gt_int, and_then, bind, py_eq
      in E; cbn [is_hazardous age_years battery_health can_refurbish
                   category truthy as_number] in E.
    exact E. }
  repeat split; intros; try reflexivity;
    unfold classify; cbn;
    repeat match goal with
           | |- context [Z_lt_dec ?a ?b] => destruct (Z_lt_dec a b)
           | |- context [string_dec ?a ?b] => destruct (string_dec a b)
           end; reflexivity.
Qed.

(** ** Identifiers *)

Lemma parse_decimal_zeros k s :
  parse_decimal (zeros k ++ s) = parse_decimal s.
Proof.
  induction k as [|k IH]; [reflexivity|].
  cbn [zeros String.append]. unfold parse_decimal in *.
  cbn [NilEmpty.uint_of_string].
  destruct (NilEmpty.uint_of_string (zeros k ++ s)) as [d|];
    destruct (NilEmpty.uint_of_string s) as [d'|];
    cbn in *; try congruence.
  exact IH.
Qed.

Lemma parse_decimal_digits n :
  parse_decimal (NilZero.string_of_uint (N.to_uint n)) = Some n.
Proof.
  assert (H : N.to_uint n <> Decimal.Nil).
  { destruct n; [discriminate | apply DecimalPos.Unsigned.to_uint_nonnil]. }
  unfold parse_decimal.
  replace (NilZero.string_of_uint (N.to_uint n))
    with (NilEmpty.string_of_uint (N.to_uint n))
    by (destruct (N.to_uint n); congruence || reflexivity).
  rewrite NilEmpty.usu. cbn. now rewrite DecimalN.Unsigned.of_to.
Qed.

Lemma format_04d_parse z :
  0 <= z -> parse_decimal (format_04d z) = Some (Z.to_N z).
Proof.
  intros Hz. unfold format_04d.
  destruct (Z.ltb_spec z 0) as [H | _]; [lia|].
  unfold zfill. now rewrite parse_decimal_zeros, parse_decimal_digits.
Qed.

Lemma format_04d_inj a b :
  0 <= a -> 0 <= b -> format_04d a = format_04d b -> a = b.
Proof.
  intros Ha Hb E.
  pose proof (format_04d_parse a Ha) as Pa.
  pose proof (format_04d_parse b Hb) as Pb.
  rewrite E, Pb in Pa. injection Pa as Pa. lia.
Qed.

Lemma asset_key_inj a b :
  0 <= a -> 0 <= b ->
  ("ASSET-" ++ format_04d a)%string = ("ASSET-" ++ format_04d b)%string ->
  a = b.
Proof.
  intros Ha Hb E. cbn [String.append] in E.
  apply (format_04d_inj a b Ha Hb). congruence.
Qed.

(** ** Dictionaries *)

Section DictFacts.
Context {V : Type}.
Implicit Types (d : list (string * V)) (k : string) (v : V).

Lemma dict_get_In d k v : dict_get d k = Some v -> In (k, v) d.
Proof.
  induction d as [|[k' v'] d IH]; cbn; [discriminate|].
  destruct (String.eqb_spec k' k) as [-> | N].
  - intros [= ->]. now left.
  - intros H. right. auto.
Qed.

Lemma dict_get_value d k v : dict_get d k = Some v -> In v (dict_values d).
Proof.
  intros H. apply dict_get_In in H.
  unfold dict_values. change v with (snd (k, v)). now apply in_map.
Qed.

Lemma dict_get_key d k v : dict_get d k = Some v -> In k (dict_keys d).
Proof.
  intros H. apply dict_get_In in H.
  unfold dict_keys. change k with (fst (k, v)). now apply in_map.
Qed.

Lemma dict_get_None d k : dict_get d k = None <-> ~ In k (dict_keys d).
Proof.
  induction d as [|[k' v'] d IH]; cbn; [tauto|].
  destruct (String.eqb_spec k' k) as [-> | N].
  - split; [discriminate | intros H; exfalso; apply H; now left].
  - rewrite IH. tauto.
Qed.

Lemma dict_contains_In d k :
  dict_contains d k = true <-> In k (dict_keys d).
Proof.
  unfold dict_contains. destruct (dict_get d k) eqn:E.
  - split; [intros _; eauto using dict_get_key | reflexivity].
  - apply dict_get_None in E. split; [discriminate | tauto].
Qed.

Lemma In_dict_get d k v :
  NoDup (dict_keys d) -> In (k, v) d -> dict_get d k = Some v.
Proof.
  induction d as [|[k' v'] d IH]; cbn; [tauto|].
  intros ND [[= -> ->] | H].
  - now rewrite String.eqb_refl.
  - inversion ND as [|? ? Hk ND']; subst.
    destruct (String.eqb_spec k' k) as [-> | N]; [|auto].
    exfalso. apply Hk. change k with (fst (k, v)). now apply in_map.
Qed.

Lemma dict_get_set_eq d k v : dict_get (dict_set d k v) k = Some v.
Proof.
  induction d as [|[k' v'] d IH]; cbn.
  - now rewrite String.eqb_refl.
  - destruct (String.eqb_spec k' k) as [-> | N]; cbn.
    + now rewrite String.eqb_refl.
    + apply String.eqb_neq in N. now rewrite N.
Qed.

Lemma dict_get_set_ne d k k' v :
  k' <> k -> dict_get (dict_set d k v) k' = dict_get d k'.
Proof.
  intros N. induction d as [|[k0 v0] d IH]; cbn.
  - assert (String.eqb k k' = false) as -> by (apply String.eqb_neq; auto).
    reflexivity.
  - destruct (String.eqb_spec k0 k) as [-> | N0]; cbn.
    + assert (String.eqb k k' = false) as ->
          by (apply String.eqb_neq; auto).
      reflexivity.
    + now rewrite IH.
Qed.

Lemma dict_keys_set_old d k v :
  In k (dict_keys d) -> dict_keys (dict_set d k v) = dict_keys d.
Proof.
  induction d as [|[k0 v0] d IH]; cbn; [tauto|].
  intros H. destruct (String.eqb_spec k0 k) as [-> | N0]; cbn.
  - reflexivity.
  - f_equal. apply IH. destruct H; [contradiction | assumption].
Qed.

Lemma dict_keys_set_new d k v :
  ~ In k (dict_keys d) -> dict_keys (dict_set d k v) = dict_keys d ++ [k].
Proof.
  induction d as [|[k0 v0] d IH]; cbn; [reflexivity|].
  intros H. destruct (String.eqb_spec k0 k) as [-> | N0]; cbn.
  - tauto.
  - f_equal. apply IH. tauto.
Qed.

Lemma dict_values_set d k v (P : V -> Prop) :
  Forall P (dict_values d) -> P v -> Forall P (dict_values (dict_set d k v)).
Proof.
  intros H Pv. induction d as [|[k0 v0] d IH]; cbn.
  - now constructor.
  - inversion H; subst.
    destruct (String.eqb k0 k); cbn; constructor; auto.
Qed.

Lemma dict_keys_del_incl d k k' :
  In k' (dict_keys (dict_del d k)) -> In k' (dict_keys d).
Proof.
  induction d as [|[k0 v0] d IH]; cbn; [tauto|].
  destruct (String.eqb k0 k); cbn; tauto.
Qed.

Lemma dict_keys_del_other d k k' :
  k' <> k -> In k' (dict_keys d) -> In k' (dict_keys (dict_del d k)).
Proof.
  intros N. induction d as [|[k0 v0] d IH]; cbn; [tauto|].
  destruct (String.eqb_spec k0 k) as [-> | N0]; cbn.
  - intros [E | H]; [congruence | assumption].
  - tauto.
Qed.

Lemma dict_keys_del_nodup d k :
  NoDup (dict_keys d) -> NoDup (dict_keys (dict_del d k)).
Proof.
  induction d as [|[k0 v0] d IH]; cbn; [auto|].
  intros ND. inversion ND; subst.
  destruct (String.eqb k0 k); cbn; [assumption|].
  constructor; auto. intros H. eauto using dict_keys_del_incl.
Qed.

Lemma dict_keys_del_gone d k :
  NoDup (dict_keys d) -> ~ In k (dict_keys (dict_del d k)).
Proof.
  induction d as [|[k0 v0] d IH]; cbn; [tauto|].
  intros ND. inversion ND; subst.
  destruct (String.eqb_spec k0 k) as [-> | N0]; cbn; [assumption|].
  intros [E | H]; [congruence | now apply IH].
Qed.

Lemma dict_del_incl d k x : In x (dict_del d k) -> In x d.
Proof.
  induction d as [|[k0 v0] d IH]; cbn; [tauto|].
  destruct (String.eqb k0 k); cbn; tauto.
Qed.

Lemma dict_get_del_ne d k k' :
  k' <> k -> dict_get (dict_del d k) k' = dict_get d k'.
Proof.
  intros N. induction d as [|[k0 v0] d IH]; cbn; [reflexivity|].
  destruct (String.eqb_spec k0 k) as [-> | N0]; cbn.
  - assert (String.eqb k k' = false) as ->
        by (apply String.eqb_neq; auto).
    reflexivity.
  - now rewrite IH.
Qed.

Lemma dict_values_del d k (P : V -> Prop) :
  Forall P (dict_values d) -> Forall P (dict_values (dict_del d k)).
Proof.
  intros H. induction d as [|[k0 v0] d IH]; cbn; [constructor|].
  inversion H; subst.
  destruct (String.eqb k0 k); cbn; [assumption | constructor; auto].
Qed.
End DictFacts.

(** ** Lists of identifiers *)

Lemma py_eq_str v k : py_eq v (VStr k) = true <-> v = VStr k.
Proof.
  destruct v; cbn; try (split; [discriminate | congruence]).
  rewrite String.eqb_eq. split; congruence.
Qed.

Lemma list_contains_str l k :
  list_contains l (VStr k) = true <-> In (VStr k) l.
Proof.
  unfold list_contains. rewrite existsb_exists. split.
  - intros (y & Hy & E). apply py_eq_str in E. now subst.
  - intros H. exists (VStr k). split; [assumption | now apply py_eq_str].
Qed.

Lemma list_remove_incl l x y : In y (list_remove l x) -> In y l.
Proof.
  induction l as [|z l IH]; cbn; [tauto|].
  destruct (py_eq z x); cbn; tauto.
Qed.

Lemma list_remove_nodup l x : NoDup l -> NoDup (list_remove l x).
Proof.
  induction 1 as [|z l Hz ND IH]; cbn; [constructor|].
  destruct (py_eq z x); [assumption|].
  constructor; [|assumption]. intros H. eauto using list_remove_incl.
Qed.

Lemma list_remove_gone l k :
  NoDup l -> ~ In (VStr k) (list_remove l (VStr k)).
Proof.
  induction 1 as [|z l Hz ND IH]; cbn; [tauto|].
  destruct (py_eq z (VStr k)) eqn:E.
  - apply py_eq_str in E. now subst.
  - intros [-> | H]; [|tauto].
    assert (py_eq (VStr k) (VStr k) = true) by now apply py_eq_str.
    congruence.
Qed.

Lemma list_remove_other l k y :
  In y l -> y <> VStr k -> In y (list_remove l (VStr k)).
Proof.
  intros H N. induction l as [|z l IH]; cbn; [assumption|].
  destruct (py_eq z (VStr k)) eqn:E.
  - apply py_eq_str in E. destruct H; [congruence | assumption].
  - destruct H; [now left | right; auto].
Qed.

(** ** Assets *)

Lemma evaluate_ignores_strategy asset v :
  evaluate_disposal_strategy (setattr asset f_disposal_strategy v)
  = evaluate_disposal_strategy asset.
Proof. now destruct asset. Qed.

Lemma setattr_strategy_current asset d :
  evaluate_disposal_strategy asset = Ok d ->
  strategy_current (setattr asset f_disposal_strategy (VStrategy d)).
Proof.
  intros E. exists d. rewrite evaluate_ignores_strategy.
  split; [assumption | now destruct asset].
Qed.

Lemma CampusAsset_init_inv i n m c a b r h asset :
  CampusAsset_init i n m c a b r h = Ok asset ->
  strategy_current asset /\ asset_id asset = i /\ last_used asset = VNone
  /\ status asset = VStr "Dormant".
Proof.
  unfold CampusAsset_init, bind.
  destruct (evaluate_disposal_strategy _) as [d|e|] eqn:E;
    [|discriminate|discriminate].
  intros [= <-]. repeat split.
  change (strategy_current
            (setattr (mkAsset i n m c a b r h (VStr "Dormant")
                        (VStr "Storage") VNone VNone)
               f_disposal_strategy (VStrategy d))).
  now apply setattr_strategy_current.
Qed.

Lemma field_of_name_field_name f : field_of_name (field_name f) = Some f.
Proof. now destruct f. Qed.

Lemma field_of_name_inv key f :
  field_of_name key = Some f -> field_name f = key.
Proof.
  unfold field_of_name. intros G. apply find_some in G.
  destruct G as [_ G]. now apply String.eqb_eq in G.
Qed.

Lemma resolve_field_name f : resolve (field_name f) = Field f.
Proof. now destruct f. Qed.

Lemma resolve_field key f : resolve key = Field f -> field_name f = key.
Proof.
  unfold resolve. destruct (field_of_name key) as [g|] eqn:G.
  - intros [= <-]. now apply field_of_name_inv.
  - destruct (existsb _ _); [discriminate|].
    destruct (String.prefix _ _); discriminate.
Qed.

(** One round of the loop of [update_asset]. *)
Lemma apply_kwargs_cons asset key v rest :
  apply_kwargs asset ((key, v) :: rest)
  = match resolve key with
    | Field f => apply_kwargs (setattr asset f v) rest
    | Missing => apply_kwargs asset rest
    | _ => Outside
    end.
Proof.
  cbn [apply_kwargs]. unfold hasattr, setattr_name.
  now destruct (resolve key).
Qed.

Lemma apply_kwargs_keeps (f : field) kwargs : forall asset asset1,
  apply_kwargs asset kwargs = Ok asset1 ->
  ~ In (field_name f) (map fst kwargs) ->
  getattr asset1 f = getattr asset f.
Proof.
  induction kwargs as [|[key v] rest IH]; intros asset asset1 A H.
  - now injection A as <-.
  - cbn in H. rewrite apply_kwargs_cons in A.
    destruct (resolve key) as [g| | |] eqn:G; try discriminate A.
    + rewrite (IH _ _ A) by tauto.
      assert (g <> f).
      { intros ->. apply H. left. symmetry. now apply resolve_field. }
      destruct asset, f, g; cbn; congruence.
    + apply (IH _ _ A). tauto.
Qed.

Lemma getattr_setattr asset f v : getattr (setattr asset f v) f = v.
Proof. now destruct asset, f. Qed.

Lemma apply_kwargs_sets (f : field) kwargs : forall asset asset1,
  apply_kwargs asset kwargs = Ok asset1 ->
  In (field_name f) (map fst kwargs) ->
  exists v,
    In (field_name f, v) kwargs /\ getattr asset1 f = v.
Proof.
  induction kwargs as [|[key v] rest IH]; intros asset asset1 A H;
    [contradiction|].
  rewrite apply_kwargs_cons in A.
  destruct (in_dec string_dec (field_name f) (map fst rest)) as [I | N].
  - destruct (resolve key) as [g| | |]; try discriminate A;
      destruct (IH _ _ A I) as (w & Hw & E);
      exists w; (split; [now right | exact E]).
  - destruct H as [E | H]; [|contradiction]. cbn [fst] in E. subst key.
    rewrite resolve_field_name in A. exists v. split; [now left|].
    rewrite (apply_kwargs_keeps f rest _ _ A N). apply getattr_setattr.
Qed.

Lemma binds_parameter_In parameters kwargs :
  binds_parameter parameters kwargs = true
  <-> exists key, In key (map fst kwargs) /\ In key parameters.
Proof.
  unfold binds_parameter. rewrite existsb_exists. split.
  - intros (key & Hk & E). apply existsb_exists in E.
    destruct E as (p0 & Hp & E). apply String.eqb_eq in E. subst. eauto.
  - intros (key & Hk & Hp). exists key. split; [assumption|].
    apply existsb_exists. exists key. split; [assumption|].
    apply String.eqb_refl.
Qed.

(** ** What each mutating call does to the inventory *)

Lemma add_asset_inv n m c a b r h self aid self' :
  add_asset n m c a b r h self = Ok (aid, self') ->
  exists asset,
    aid = ("ASSET-" ++ format_04d (next_id self))%string
    /\ CampusAsset_init (VStr aid) n m c a b r h = Ok asset
    /\ self' = _process_asset asset
                 (mkInventory (dict_set (assets self) aid asset)
                    (next_id self + 1) (marketplace_items self)
                    (components_library self)).
Proof.
  unfold add_asset, bind. cbn [assets next_id marketplace_items
                                 components_library].
  destruct (CampusAsset_init _ n m c a b r h) as [asset|e|] eqn:E;
    [|discriminate|discriminate].
  intros [= <- <-]. exists asset. auto.
Qed.

Lemma update_asset_inv aid kwargs self b self' :
  update_asset aid kwargs self = Ok (b, self') ->
  (b = false /\ self' = self /\ dict_get (assets self) aid = None)
  \/ (b = true
      /\ exists asset asset1 d,
          dict_get (assets self) aid = Some asset
          /\ apply_kwargs asset kwargs = Ok asset1
          /\ evaluate_disposal_strategy asset1 = Ok d
          /\ self' = mkInventory
                       (dict_set (assets self) aid
                          (setattr asset1 f_disposal_strategy (VStrategy d)))
                       (next_id self) (marketplace_items self)
                       (components_library self)).
Proof.
  unfold update_asset, bind.
  destruct (binds_parameter _ kwargs); [discriminate|].
  destruct (dict_get (assets self) aid) as [asset|] eqn:G.
  - destruct (apply_kwargs asset kwargs) as [asset1|e|] eqn:A;
      [|discriminate|discriminate].
    destruct (evaluate_disposal_strategy _) as [d|e|] eqn:E;
      [|discriminate|discriminate].
    intros [= <- <-]. right. split; [reflexivity|].
    exists asset, asset1, d. auto.
  - intros [= <- <-]. left. auto.
Qed.

(** A completed update names no parameter of the method. *)
Lemma update_asset_binds aid kwargs self :
  In "self" (map fst kwargs) \/ In "asset_id" (map fst kwargs) ->
  update_asset aid kwargs self = Raise TypeError.
Proof.
  intros H. unfold update_asset.
  assert (B : binds_parameter ["self"; "asset_id"] kwargs = true).
  { apply binds_parameter_In. destruct H as [H | H];
      eexists; (split; [exact H|]); cbn; auto. }
  now rewrite B.
Qed.

Lemma _process_asset_frame asset self :
  assets (_process_asset asset self) = assets self
  /\ next_id (_process_asset asset self) = next_id self
  /\ (marketplace_items (_process_asset asset self) = marketplace_items self
      \/ marketplace_items (_process_asset asset self)
         = marketplace_items self ++ [asset_id asset]).
Proof.
  unfold _process_asset.
  destruct (py_eq _ _); cbn; auto.
Qed.

Lemma fresh_key self :
  well_formed self ->
  ~ In ("ASSET-" ++ format_04d (next_id self))%string
      (dict_keys (assets self)).
Proof.
  intros W H. destruct (wf_keys _ W _ H) as (n & Hn & E).
  pose proof (wf_next_id _ W).
  apply asset_key_inj in E; lia.
Qed.

Lemma add_asset_wf n m c a b r h self aid self' :
  well_formed self ->
  add_asset n m c a b r h self = Ok (aid, self') ->
  well_formed self'.
Proof.
  intros W A. apply add_asset_inv in A. destruct A as (asset & Eid & I & ->).
  pose proof (fresh_key self W) as F. rewrite <- Eid in F.
  apply CampusAsset_init_inv in I. destruct I as (Cur & Iid & _).
  destruct (_process_asset_frame asset
              (mkInventory (dict_set (assets self) aid asset)
                 (next_id self + 1) (marketplace_items self)
                 (components_library self))) as (EA & EN & EM).
  cbn [assets next_id marketplace_items] in EA, EN, EM.
  assert (K : dict_keys (dict_set (assets self) aid asset)
              = dict_keys (assets self) ++ [aid])
    by now apply dict_keys_set_new.
  assert (M : forall v, In v (marketplace_items self) -> v <> VStr aid).
  { intros v Hv ->. destruct (wf_marketplace _ W _ Hv) as (k & [= <-] & Hk).
    contradiction. }
  constructor.
  - rewrite EN. pose proof (wf_next_id _ W). lia.
  - rewrite EA, EN, K. intros k Hk. apply in_app_or in Hk.
    destruct Hk as [Hk | [<- | []]].
    + destruct (wf_keys _ W _ Hk) as (j & Hj & E). exists j. split; [lia|auto].
    + exists (next_id self). pose proof (wf_next_id _ W). split; [lia|auto].
  - rewrite EA, K. apply NoDup_app.
    + exact (wf_keys_nodup _ W).
    + repeat constructor. tauto.
    + intros k Hk [<- | []]. contradiction.
  - rewrite EA, K. intros v Hv.
    assert (Hv' : In v (marketplace_items self) \/ v = VStr aid).
    { destruct EM as [EM | EM]; rewrite EM in Hv; [now left|].
      apply in_app_or in Hv. destruct Hv as [Hv | [<- | []]]; auto. }
    destruct Hv' as [Hv' | ->].
    + destruct (wf_marketplace _ W _ Hv') as (k & -> & Hk).
      exists k. split; [reflexivity | apply in_or_app; now left].
    + exists aid. split; [reflexivity | apply in_or_app; right; now left].
  - destruct EM as [EM | EM]; rewrite EM; [exact (wf_marketplace_nodup _ W)|].
    rewrite Iid. apply NoDup_app.
    + exact (wf_marketplace_nodup _ W).
    + repeat constructor. tauto.
    + intros v Hv [<- | []]. now apply (M _ Hv).
  - unfold all_current. rewrite EA. apply dict_values_set; [|assumption].
    exact (wf_current _ W).
Qed.

Lemma update_asset_wf aid kwargs self b self' :
  well_formed self ->
  update_asset aid kwargs self = Ok (b, self') ->
  well_formed self'.
Proof.
  intros W U. apply update_asset_inv in U.
  destruct U as [(_ & -> & _) | (_ & asset & asset1 & d & G & A & E & ->)];
    [assumption|].
  assert (K : dict_keys (dict_set (assets self) aid
                           (setattr asset1
                              f_disposal_strategy (VStrategy d)))
              = dict_keys (assets self))
    by (apply dict_keys_set_old; eauto using dict_get_key).
  constructor; cbn [assets next_id marketplace_items]; rewrite ?K.
  - exact (wf_next_id _ W).
  - exact (wf_keys _ W).
  - exact (wf_keys_nodup _ W).
  - exact (wf_marketplace _ W).
  - exact (wf_marketplace_nodup _ W).
  - unfold all_current. cbn [assets]. apply dict_values_set.
    + exact (wf_current _ W).
    + now apply setattr_strategy_current.
Qed.

Lemma delete_asset_wf aid self b self' :
  well_formed self ->
  delete_asset aid self = Ok (b, self') ->
  well_formed self'.
Proof.
  intros W. unfold delete_asset.
  destruct (dict_contains (assets self) aid) eqn:C;
    [|intros [= <- <-]; assumption].
  cbn [assets next_id marketplace_items components_library].
  destruct (list_contains (marketplace_items self) (VStr aid)) eqn:L;
    intros [= <- <-]; constructor;
    cbn [assets next_id marketplace_items components_library].
  all: try exact (wf_next_id _ W).
  all: try (intros k Hk; apply dict_keys_del_incl in Hk;
            exact (wf_keys _ W _ Hk)).
  all: try (apply dict_keys_del_nodup; exact (wf_keys_nodup _ W)).
  all: try (unfold all_current; cbn [assets]; apply dict_values_del;
            exact (wf_current _ W)).
  - intros v Hv.
    assert (N : v <> VStr aid).
    { intros ->. revert Hv. apply list_remove_gone.
      exact (wf_marketplace_nodup _ W). }
    apply list_remove_incl in Hv.
    destruct (wf_marketplace _ W _ Hv) as (k & -> & Hk).
    exists k. split; [reflexivity|].
    apply dict_keys_del_other; [congruence | assumption].
  - apply list_remove_nodup. exact (wf_marketplace_nodup _ W).
  - intros v Hv.
    assert (N : v <> VStr aid).
    { intros ->. apply list_contains_str in Hv. congruence. }
    destruct (wf_marketplace _ W _ Hv) as (k & -> & Hk).
    exists k. split; [reflexivity|].
    apply dict_keys_del_other; [congruence | assumption].
  - exact (wf_marketplace_nodup _ W).
Qed.

Lemma search_assets_same criteria self results self' :
  search_assets criteria self = Ok (results, self') -> self' = self.
Proof.
  unfold search_assets, bind.
  destruct (binds_parameter _ criteria); [discriminate|].
  destruct (fold_result _ _ _); [|discriminate|discriminate].
  now intros [= _ <-].
Qed.

Section InventoryFacts.
Variable str_lower : string -> string.
Variable isoformat : datetime -> string.

Local Abbreviation perform := (perform str_lower isoformat).
Local Abbreviation reachable := (reachable str_lower isoformat).

Lemma answer_inv {A} (wrap : A -> response) r x self' :
  answer wrap r = Ok (x, self') ->
  exists a, r = Ok (a, self') /\ x = wrap a.
Proof.
  unfold answer, bind. destruct r as [[a s]|e|]; [|discriminate|discriminate].
  intros [= <- <-]. eauto.
Qed.

(** A request that only looks the inventory up leaves it as it is. *)
Lemma perform_read_only q self r self' :
  read_only q = true ->
  perform q self = Ok (r, self') ->
  self' = self.
Proof.
  destruct q; cbn [read_only]; try discriminate; intros _ P;
    apply answer_inv in P; destruct P as (x & P & _).
  - now injection P.
  - eauto using search_assets_same.
  - unfold check_procurement_prevention, bind in P.
    destruct (dormant_matches _ _ _ _) as [[|? ?]| |]; congruence.
  - unfold show_marketplace, bind in P.
    destruct (map_result _ _); congruence.
  - unfold generate_migration_report, bind in P.
    destruct (fold_result _ _ _); congruence.
  - unfold export_to_json, bind in P.
    destruct (map_result _ _); congruence.
Qed.

Lemma perform_wf q self r self' :
  well_formed self ->
  perform q self = Ok (r, self') ->
  well_formed self'.
Proof.
  intros W P. destruct (read_only q) eqn:R.
  - now rewrite (perform_read_only q self r self' R P).
  - destruct q; try discriminate;
      apply answer_inv in P; destruct P as (x & P & _).
    + eauto using add_asset_wf.
    + eauto using update_asset_wf.
    + eauto using delete_asset_wf.
Qed.

Lemma init_wf : well_formed CampusInventory_init.
Proof.
  constructor; cbn; try tauto; try lia; constructor.
Qed.

Lemma reachable_wf self : reachable self -> well_formed self.
Proof.
  induction 1; eauto using init_wf, perform_wf.
Qed.
End InventoryFacts.

(** ** Searching *)

(** One round of the inner loop of [search_assets]. *)
Lemma criteria_match_cons asset key v rest :
  criteria_match asset ((key, v) :: rest)
  = match resolve key with
    | Field f =>
        if py_ne (getattr asset f) v then Ok false
        else criteria_match asset rest
    | Method => Ok false
    | Missing => criteria_match asset rest
    | Special => Outside
    end.
Proof.
  cbn [criteria_match]. unfold hasattr, attr_differs.
  now destruct (resolve key).
Qed.

Lemma plain_name_resolve key :
  plain_name key = true -> key <> "self" /\ resolve key <> Special.
Proof.
  unfold plain_name. intros H. apply andb_true_iff in H.
  destruct H as [H1 H2]. split.
  - intros ->. discriminate H1.
  - intros E. rewrite E in H2. discriminate H2.
Qed.

Lemma criteria_match_forallb asset criteria :
  plain_names criteria ->
  criteria_match asset criteria
  = Ok (forallb (criterion_holds asset) criteria).
Proof.
  induction 1 as [|[key v] rest Hk _ IH]; [reflexivity|].
  rewrite criteria_match_cons. cbn [forallb]. unfold criterion_holds at 1.
  cbn [fst snd] in *. apply plain_name_resolve in Hk. destruct Hk as [_ Hk].
  destruct (resolve key) as [f| | |]; try exact IH; try reflexivity;
    [|contradiction].
  unfold py_ne. destruct (py_eq (getattr asset f) v); [exact IH | reflexivity].
Qed.

Lemma plain_names_binds criteria :
  plain_names criteria -> binds_parameter ["self"] criteria = false.
Proof.
  intros H. destruct (binds_parameter _ criteria) eqn:B; [|reflexivity].
  apply binds_parameter_In in B. destruct B as (key & Hk & [<- | []]).
  apply in_map_iff in Hk. destruct Hk as (c & E & Hc).
  unfold plain_names in H. rewrite Forall_forall in H.
  apply H, plain_name_resolve in Hc. rewrite E in Hc. now destruct Hc.
Qed.

Lemma fold_result_collect {A} (p : A -> result bool) (q : A -> bool)
  (l : list A) :
  (forall x, In x l -> p x = Ok (q x)) ->
  forall acc,
    fold_result
      (fun results x =>
         matched <- p x ;; Ok (if matched then results ++ [x] else results))
      l acc
    = Ok (acc ++ filter q l).
Proof.
  induction l as [|x l IH]; intros H acc; cbn [fold_result filter].
  - now rewrite app_nil_r.
  - rewrite (H x (or_introl eq_refl)). cbn [bind].
    rewrite IH by (intros; apply H; now right).
    destruct (q x); [now rewrite <- app_assoc | reflexivity].
Qed.

Lemma fold_result_collect_incl {A} (p : A -> result bool) (l : list A) :
  forall acc results,
    fold_result
      (fun results x =>
         matched <- p x ;; Ok (if matched then results ++ [x] else results))
      l acc
    = Ok results ->
    forall x, In x results -> In x acc \/ In x l.
Proof.
  induction l as [|y l IH]; intros acc results H x Hx; cbn [fold_result] in H.
  - injection H as <-. now left.
  - unfold bind at 1 in H. destruct (p y) as [m|e|]; try discriminate H.
    unfold bind at 1 in H.
    destruct (IH _ _ H x Hx) as [Ha | Hl]; [|right; now right].
    destruct m; [|now left].
    apply in_app_or in Ha. destruct Ha as [Ha | [<- | []]];
      [now left | right; now left].
Qed.


Lemma search_assets_filter criteria self :
  plain_names criteria ->
  search_assets criteria self
  = Ok (filter (fun asset => forallb (criterion_holds asset) criteria)
          (dict_values (assets self)), self).
Proof.
  intros H. unfold search_assets. rewrite (plain_names_binds _ H).
  rewrite (fold_result_collect _
             (fun asset => forallb (criterion_holds asset) criteria))
    by (intros; now apply criteria_match_forallb).
  reflexivity.
Qed.

Lemma search_assets_incl criteria self results self' asset :
  search_assets criteria self = Ok (results, self') ->
  In asset results -> In asset (dict_values (assets self)).
Proof.
  unfold search_assets.
  destruct (binds_parameter _ criteria); [discriminate|].
  destruct (fold_result _ _ _) as [r|e|] eqn:F; cbn [bind]; try discriminate.
  intros [= <- _] Hin.
  destruct (fold_result_collect_incl _ _ _ _ F asset Hin) as [[] | H].
  exact H.
Qed.




(** ** The status and the last-used stamp *)

Lemma update_asset_keeps_field (f : field) aid kwargs self b self' k asset' :
  update_asset aid kwargs self = Ok (b, self') ->
  f <> f_disposal_strategy ->
  ~ In (field_name f) (map fst kwargs) ->
  dict_get (assets self') k = Some asset' ->
  exists asset,
    dict_get (assets self) k = Some asset
    /\ getattr asset' f = getattr asset f.
Proof.
  intros U Nf Nk G. apply update_asset_inv in U.
  destruct U as [(_ & -> & _) | (_ & asset & asset1 & d & Ga & A & E & ->)];
    [eauto|].
  cbn [assets] in G.
  destruct (string_dec k aid) as [-> | Nka].
  - rewrite dict_get_set_eq in G. injection G as <-.
    exists asset. split; [assumption|].
    rewrite <- (apply_kwargs_keeps f kwargs asset asset1 A Nk).
    destruct asset1, f; cbn; congruence.
  - rewrite dict_get_set_ne in G by assumption. eauto.
Qed.

(** C5.  The call [update_asset("ASSET-0001", status="In Use")] on the
    inventory holding one laptop returns [True] and sets the status, and the
    last-used stamp stays [None]: [update_asset] assigns the attribute and
    never calls [update_status], which is the method that stamps the time.
    No update that does not itself name [last_used] changes the stamp. *)
Theorem update_asset_in_use_leaves_last_used :
  update_asset "ASSET-0001" [("status", VStr "In Use")] one_laptop
  = Ok (true,
        mkInventory
          [("ASSET-0001", setattr laptop f_status (VStr "In Use"))] 2 [] [])
  /\ last_used (setattr laptop f_status (VStr "In Use")) = VNone
  /\ (forall now,
         last_used (update_status now (VStr "In Use") laptop)
         = VDatetime now)
  /\ (forall aid kwargs self b self' k asset',
         update_asset aid kwargs self = Ok (b, self') ->
         ~ In "last_used" (map fst kwargs) ->
         dict_get (assets self') k = Some asset' ->
         exists asset,
           dict_get (assets self) k = Some asset
           /\ last_used asset' = last_used asset).
Proof.
  repeat split.
  intros aid kwargs self b self' k asset' U N G.
  exact (update_asset_keeps_field f_last_used aid kwargs self b self' k asset'
           U ltac:(discriminate) N G).
Qed.

(** ** The procurement check *)

Section Procurement.
Variable str_lower : string -> string.

Lemma dormant_matches_filter device_name device_category l :
  Forall (fun asset => is_str (name asset)) l ->
  dormant_matches str_lower device_name device_category l
  = Ok (filter (is_dormant_match str_lower device_name device_category) l).
Proof.
  induction 1 as [|asset l [n Hn] _ IH]; [reflexivity|].
  cbn [dormant_matches filter]. rewrite IH, Hn. cbn [lower bind].
  unfold is_dormant_match. rewrite Hn. reflexivity.
Qed.

(** C4, amended.  When every stored name is a string the check completes
    and leaves the inventory as it is; it returns, in the order of the map,
    exactly the assets whose name agrees with the device name up to case,
    whose status is "Dormant" and whose category is the one asked, when
    there is one, and [None] when there is none. *)
Theorem check_procurement_prevention_matches_or_none
  device_name device_category self :
  Forall (fun asset => is_str (name asset)) (dict_values (assets self)) ->
  check_procurement_prevention str_lower device_name device_category self
  = Ok (match filter (is_dormant_match str_lower device_name device_category)
                (dict_values (assets self)) with
        | [] => None
        | ms => Some ms
        end, self).
Proof.
  intros H. unfold check_procurement_prevention.
  rewrite (dormant_matches_filter _ _ _ H). cbn [bind].
  now destruct (filter _ _).
Qed.
End Procurement.

(** C4, as the specification states it, fails: with no match the check
    returns [None], not an empty sequence. *)
Lemma procurement_no_match_counterexample :
  check_procurement_prevention lower_ascii "Laptop" (VStr "Laptop")
    CampusInventory_init
  = Ok (None, CampusInventory_init)
  /\ check_procurement_prevention lower_ascii "Laptop" (VStr "Laptop")
       CampusInventory_init
     <> Ok (Some [], CampusInventory_init).
Proof. split; [reflexivity | discriminate]. Qed.

Lemma check_procurement_prevention_witness :
  Forall (fun asset => is_str (name asset)) (dict_values (assets one_laptop))
  /\ check_procurement_prevention lower_ascii "LAPTOP" (VStr "Laptop")
       one_laptop
     = Ok (Some [laptop], one_laptop).
Proof.
  assert (H : Forall (fun asset => is_str (name asset))
                (dict_values (assets one_laptop)))
    by (repeat constructor; now exists "Laptop").
  split; [exact H|].
  exact (check_procurement_prevention_matches_or_none lower_ascii "LAPTOP"
           (VStr "Laptop") one_laptop H).
Defined.

(** ** Invariants of the inventory *)

Section Claims.
Variable str_lower : string -> string.
Variable isoformat : datetime -> string.

Local Abbreviation perform := (perform str_lower isoformat).
Local Abbreviation reachable := (reachable str_lower isoformat).

(** C2.  After any call of a public method completes, on an inventory a run
    can be in, the stored strategy of every asset of the map is what the
    classifier returns for the attributes the asset has then. *)
Theorem strategy_never_stale q self r self' :
  reachable self ->
  perform q self = Ok (r, self') ->
  forall k asset,
    dict_get (assets self') k = Some asset ->
    exists d,
      evaluate_disposal_strategy asset = Ok d
      /\ disposal_strategy asset = VStrategy d.
Proof.
  intros R P k asset G.
  pose proof (wf_current _ (perform_wf _ _ _ _ _ _
                              (reachable_wf _ _ _ R) P)) as C.
  unfold all_current in C. rewrite Forall_forall in C.
  apply C. eauto using dict_get_value.
Qed.

(** C8.  [update_asset] leaves the marketplace index as it is, also when
    the strategy it recomputes becomes or ceases to be Marketplace; of all
    the public methods only [add_asset] and [delete_asset] change the
    index. *)
Theorem marketplace_changed_only_by_add_and_delete :
  (forall aid kwargs self b self',
      update_asset aid kwargs self = Ok (b, self') ->
      marketplace_items self' = marketplace_items self)
  /\ (forall q self r self',
         perform q self = Ok (r, self') ->
         touches_marketplace q = false ->
         marketplace_items self' = marketplace_items self)
  /\ update_asset "ASSET-0001" [("battery_health", VInt 60)] one_laptop
     = Ok (true,
           mkInventory
             [("ASSET-0001",
               setattr (setattr laptop f_battery_health (VInt 60))
                 f_disposal_strategy (VStrategy MARKETPLACE))] 2 [] [])
  /\ update_asset "ASSET-0001" [("battery_health", VInt 30)] one_macbook
     = Ok (true,
           mkInventory
             [("ASSET-0001",
               setattr (setattr macbook f_battery_health (VInt 30))
                 f_disposal_strategy (VStrategy RECYCLE))] 2
             [VStr "ASSET-0001"] []).
Proof.
  assert (U : forall aid kwargs self b self',
             update_asset aid kwargs self = Ok (b, self') ->
             marketplace_items self' = marketplace_items self).
  { intros aid kwargs self b self' H. apply update_asset_inv in H.
    destruct H as [(_ & -> & _) | (_ & asset & asset1 & d & _ & _ & _ & ->)];
      reflexivity. }
  repeat split; [exact U|].
  intros q self r self' P T.
  destruct (read_only q) eqn:R.
  - now rewrite (perform_read_only _ _ q self r self' R P).
  - destruct q; try discriminate.
    apply answer_inv in P. destruct P as (b & P & _). eauto.
Qed.

(** C10.  In every inventory a run can be in, the marketplace index holds
    no identifier twice, every identifier it holds is a key of the asset
    map, and the look-up of each listed identifier, as [show_marketplace]
    does it, succeeds. *)
Theorem marketplace_index_never_dangles self :
  reachable self ->
  NoDup (marketplace_items self)
  /\ (forall v, In v (marketplace_items self) ->
        exists k asset, v = VStr k /\ dict_get (assets self) k = Some asset)
  /\ exists shown, show_marketplace self = Ok (shown, self).
Proof.
  intros R. pose proof (reachable_wf _ _ _ R) as W.
  assert (L : forall v, In v (marketplace_items self) ->
                exists k asset,
                  v = VStr k /\ dict_get (assets self) k = Some asset).
  { intros v Hv. destruct (wf_marketplace _ W _ Hv) as (k & -> & Hk).
    destruct (dict_get (assets self) k) as [asset|] eqn:G; [eauto|].
    apply dict_get_None in G. contradiction. }
  split; [exact (wf_marketplace_nodup _ W)|]. split; [exact L|].
  unfold show_marketplace.
  induction (marketplace_items self) as [|v l IH].
  - exists []. reflexivity.
  - destruct IH as (shown & IH); [intros; apply L; now right|].
    destruct (L v (or_introl eq_refl)) as (k & asset & -> & G).
    exists (asset :: shown). cbn [map_result]. rewrite G. cbn [bind].
    unfold bind in IH |- *.
    destruct (map_result _ l) as [ys|e|]; [|discriminate|discriminate].
    now injection IH as ->.
Qed.

Lemma delete_asset_inv aid self b self' :
  delete_asset aid self = Ok (b, self') ->
  (b = false /\ self' = self /\ dict_contains (assets self) aid = false)
  \/ (b = true
      /\ dict_contains (assets self) aid = true
      /\ assets self' = dict_del (assets self) aid
      /\ next_id self' = next_id self
      /\ marketplace_items self'
         = if list_contains (marketplace_items self) (VStr aid)
           then list_remove (marketplace_items self) (VStr aid)
           else marketplace_items self).
Proof.
  unfold delete_asset.
  destruct (dict_contains (assets self) aid) eqn:C;
    [|intros [= <- <-]; left; auto].
  cbn [assets next_id marketplace_items components_library].
  intros [= <- <-]. right.
  destruct (list_contains (marketplace_items self) (VStr aid)); cbn; auto.
Qed.




(** C7.  On an inventory a run can be in: deleting an identifier that is no
    key of the map returns [False] and leaves the whole inventory as it is;
    deleting one that is a key returns [True], and afterwards the identifier
    is no key of the map and not in the marketplace index, [get_asset]
    returns [None] for it, every asset a search returns is stored under
    another key (and bears another [asset_id] when the stored identifiers
    were the keys), while the other entries, the other listed identifiers
    and [next_id] are as before. *)
Theorem delete_asset_removes aid self :
  reachable self ->
  (dict_contains (assets self) aid = false ->
   delete_asset aid self = Ok (false, self))
  /\ (dict_contains (assets self) aid = true ->
      exists self',
        delete_asset aid self = Ok (true, self')
        /\ ~ In aid (dict_keys (assets self'))
        /\ ~ In (VStr aid) (marketplace_items self')
        /\ get_asset aid self' = Ok (None, self')
        /\ (forall criteria results asset,
               search_assets criteria self' = Ok (results, self') ->
               In asset results ->
               exists k, k <> aid /\ dict_get (assets self') k = Some asset)
        /\ (ids_match self ->
            forall criteria results asset,
              search_assets criteria self' = Ok (results, self') ->
              In asset results -> asset_id asset <> VStr aid)
        /\ (forall k, k <> aid ->
                      dict_get (assets self') k = dict_get (assets self) k)
        /\ (forall v, v <> VStr aid ->
                      In v (marketplace_items self')
                      <-> In v (marketplace_items self))
        /\ next_id self' = next_id self).
Proof.
  intros R. pose proof (reachable_wf _ _ _ R) as W. split.
  { intros C. unfold delete_asset. now rewrite C. }
  intros C.
  destruct (delete_asset aid self) as [[b self']|e|] eqn:D;
    [|unfold delete_asset in D; rewrite C in D; discriminate..].
  pose proof (delete_asset_wf _ _ _ _ W D) as W'.
  apply delete_asset_inv in D.
  destruct D as [(_ & _ & C') | (-> & _ & EA & EN & EM)]; [congruence|].
  exists self'. split; [reflexivity|].
  assert (K : ~ In aid (dict_keys (assets self'))).
  { rewrite EA. apply dict_keys_del_gone. exact (wf_keys_nodup _ W). }
  assert (S : forall criteria results asset,
             search_assets criteria self' = Ok (results, self') ->
             In asset results ->
             exists k, k <> aid /\ dict_get (assets self') k = Some asset).
  { intros criteria results asset H Hin.
    apply (search_assets_incl _ _ _ _ _ H) in Hin.
    unfold dict_values in Hin. apply in_map_iff in Hin.
    destruct Hin as ([k a] & <- & Hin). exists k. split.
    - intros ->. apply K. unfold dict_keys.
      change aid with (fst (aid, a)). now apply in_map.
    - apply In_dict_get; [exact (wf_keys_nodup _ W') | assumption]. }
  split; [exact K|]. split.
  { rewrite EM. destruct (list_contains _ _) eqn:L.
    - apply list_remove_gone. exact (wf_marketplace_nodup _ W).
    - intros H. apply list_contains_str in H. congruence. }
  split.
  { unfold get_asset. apply dict_get_None in K. now rewrite K. }
  split; [exact S|]. split.
  { intros M criteria results asset H Hin.
    destruct (S criteria results asset H Hin) as (k & N & G).
    rewrite EA, dict_get_del_ne in G by assumption.
    rewrite (M _ _ G). congruence. }
  split.
  { intros k N. now rewrite EA, dict_get_del_ne. }
  split; [|exact EN].
  intros v N. rewrite EM. destruct (list_contains _ _); [|tauto].
  split; [apply list_remove_incl | intros H; now apply list_remove_other].
Qed.

Lemma to_dict_flat_record asset d :
  disposal_strategy asset = VStrategy d ->
  exists l,
    to_dict asset = Ok l
    /\ map (fun '(k, v) => (k, JAtom v)) l = flat_record asset d.
Proof.
  intros E. unfold to_dict. rewrite E. cbn [enum_value bind].
  eexists. split; reflexivity.
Qed.

Lemma export_entries (d : list (string * CampusAsset)) :
  Forall strategy_current (dict_values d) ->
  map_result
    (fun '(aid, asset) =>
       r <- to_dict asset ;;
       Ok (aid, JDict (map (fun '(k, v) => (k, JAtom v)) r))) d
  = Ok (map (fun '(aid, asset) =>
               (aid, JDict (flat_record asset (strategy_of asset)))) d).
Proof.
  induction d as [|[aid asset] d IH]; intros H; [reflexivity|].
  cbn [dict_values map] in H. inversion H as [|? ? (s & _ & Hs) H']; subst.
  cbn [map_result map]. rewrite (IH H').
  destruct (to_dict_flat_record asset s Hs) as (l & -> & E).
  cbn [bind]. unfold strategy_of. rewrite Hs, E. reflexivity.
Qed.

(** C9, amended.  On an inventory a run can be in, the record
    [export_to_json] builds has exactly the three fields assets,
    marketplace and timestamp: assets maps each key of the map to the flat
    record of its asset, which holds every attribute except [last_used],
    the strategy as its display string; marketplace is the index; timestamp
    is the formatted clock reading; and the inventory is left as it is. *)
Theorem export_to_json_snapshot now self :
  reachable self ->
  export_to_json isoformat now self
  = Ok (JDict
          [("assets",
            JDict (map (fun '(aid, asset) =>
                          (aid, JDict (flat_record asset (strategy_of asset))))
                     (assets self)));
           ("marketplace", JList (marketplace_items self));
           ("timestamp", JAtom (VStr (isoformat now)))],
        self)
  /\ (forall asset d f,
         dict_get (flat_record asset d) (field_name f)
         = match f with
           | f_last_used => None
           | f_disposal_strategy =>
               Some (JAtom (VStr (DisposalStrategy_value d)))
           | _ => Some (JAtom (getattr asset f))
           end).
Proof.
  intros R. pose proof (wf_current _ (reachable_wf _ _ _ R)) as C.
  split.
  - unfold export_to_json. rewrite (export_entries _ C). reflexivity.
  - intros asset d f. destruct f; reflexivity.
Qed.
End Claims.

(** C9, as the specification states it, fails: the flat record of an asset
    lacks the attribute [last_used]. *)
Lemma to_dict_omits_last_used :
  hasattr laptop "last_used" = Ok true
  /\ exists d, to_dict laptop = Ok d /\ dict_get d "last_used" = None.
Proof. split; [reflexivity|]. eexists. split; reflexivity. Qed.

(** ** Instances at the sample inventories *)

Lemma one_laptop_reachable :
  reachable lower_ascii isoformat_decimal one_laptop.
Proof.
  apply (reachable_step lower_ascii isoformat_decimal
           (AddAsset (VStr "Laptop") (VStr "ThinkPad X1") (VStr "Laptop")
              (VFloat (Fin (3 # 2))) (VInt 85) (VBool true) (VBool false))
           CampusInventory_init (RId "ASSET-0001")).
  - apply reachable_init.
  - reflexivity.
Defined.


Lemma one_macbook_reachable :
  reachable lower_ascii isoformat_decimal one_macbook.
Proof.
  apply (reachable_step lower_ascii isoformat_decimal
           (AddAsset (VStr "MacBook Pro") (VStr "M1-2021") (VStr "Laptop")
              (VFloat (Fin 4)) (VInt 90) (VBool true) (VBool false))
           CampusInventory_init (RId "ASSET-0001")).
  - apply reachable_init.
  - reflexivity.
Defined.

Lemma strategy_never_stale_witness :
  reachable lower_ascii isoformat_decimal one_laptop
  /\ perform lower_ascii isoformat_decimal
       (UpdateAsset "ASSET-0001" [("battery_health", VInt 60)]) one_laptop
     = Ok (RBool true,
           mkInventory
             [("ASSET-0001",
               setattr (setattr laptop f_battery_health (VInt 60))
                 f_disposal_strategy (VStrategy MARKETPLACE))] 2 [] [])
  /\ exists d,
      evaluate_disposal_strategy
        (setattr (setattr laptop f_battery_health (VInt 60))
           f_disposal_strategy (VStrategy MARKETPLACE)) = Ok d
      /\ disposal_strategy
           (setattr (setattr laptop f_battery_health (VInt 60))
              f_disposal_strategy (VStrategy MARKETPLACE)) = VStrategy d.
Proof.
  split; [exact one_laptop_reachable|]. split; [reflexivity|].
  exact (strategy_never_stale lower_ascii isoformat_decimal
           (UpdateAsset "ASSET-0001" [("battery_health", VInt 60)])
           one_laptop (RBool true) _ one_laptop_reachable eq_refl
           "ASSET-0001" _ eq_refl).
Defined.

Lemma one_laptop_ids_match : ids_match one_laptop.
Proof.
  intros k asset H. unfold one_laptop in H. cbn [assets dict_get] in H.
  destruct (String.eqb_spec "ASSET-0001" k) as [<- | _]; [|discriminate H].
  injection H as <-. reflexivity.
Defined.

Lemma delete_asset_witness :
  reachable lower_ascii isoformat_decimal one_macbook
  /\ dict_contains (assets one_macbook) "ASSET-0001" = true
  /\ exists self',
      delete_asset "ASSET-0001" one_macbook = Ok (true, self')
      /\ get_asset "ASSET-0001" self' = Ok (None, self')
      /\ ~ In (VStr "ASSET-0001") (marketplace_items self').
Proof.
  split; [exact one_macbook_reachable|]. split; [reflexivity|].
  destruct (proj2 (delete_asset_removes lower_ascii isoformat_decimal
                     "ASSET-0001" one_macbook one_macbook_reachable)
              eq_refl)
    as (self' & D & _ & M & G & _).
  exists self'. auto.
Defined.

Lemma export_to_json_witness :
  reachable lower_ascii isoformat_decimal one_laptop
  /\ export_to_json isoformat_decimal 12345 one_laptop
     = Ok (JDict
             [("assets",
               JDict [("ASSET-0001", JDict (flat_record laptop RELOCATE))]);
              ("marketplace", JList []);
              ("timestamp", JAtom (VStr "12345"))],
           one_laptop).
Proof.
  split; [exact one_laptop_reachable|].
  exact (proj1 (export_to_json_snapshot lower_ascii isoformat_decimal 12345
                  one_laptop one_laptop_reachable)).
Defined.

Lemma marketplace_index_witness :
  reachable lower_ascii isoformat_decimal one_macbook
  /\ NoDup (marketplace_items one_macbook)
  /\ exists shown, show_marketplace one_macbook = Ok (shown, one_macbook).
Proof.
  split; [exact one_macbook_reachable|].
  destruct (marketplace_index_never_dangles lower_ascii isoformat_decimal
              one_macbook one_macbook_reachable) as (N & _ & S).
  auto.
Defined.

(** ** More on the classifier *)

(** X1.  The classifier raises only a TypeError, and only on an asset that
    is not hazardous and whose age or battery health is no number; it does
    raise whenever such an asset's age is no number; and a hazardous asset
    is classified whatever the other attributes hold. *)
Theorem evaluate_raises_only_on_non_numbers asset :
  (forall e,
      evaluate_disposal_strategy asset = Raise e ->
      e = TypeError
      /\ truthy (is_hazardous asset) = false
      /\ (as_number (age_years asset) = None
          \/ as_number (battery_health asset) = None))
  /\ (truthy (is_hazardous asset) = false ->
      as_number (age_years asset) = None ->
      evaluate_disposal_strategy asset = Raise TypeError)
  /\ (truthy (is_hazardous asset) = true ->
      evaluate_disposal_strategy asset = Ok HAZARDOUS_DISPOSAL).
Proof.
  unfold evaluate_disposal_strategy, lt_int, gt_int, and_then, bind.
  destruct (truthy (is_hazardous asset)).
  { repeat split; try discriminate. }
  split; [|split; [|discriminate]].
  - intros e.
    destruct (as_number (age_years asset)) as [[q | neg |]|];
      destruct (as_number (battery_health asset)) as [[p | neg' |]|];
      destruct (truthy (can_refurbish asset));
      repeat match goal with
             | |- context [Qltb ?x ?y] => destruct (Qltb x y)
             | |- context [py_eq ?x ?y] => destruct (py_eq x y)
             | |- context [if ?c then _ else _] => destruct c
             end; cbn;
      intros H; try discriminate H; injection H as <-; auto.
  - intros _ ->. reflexivity.
Qed.

(** X2.  On a typed asset each strategy is returned under exactly one
    condition: hazardous disposal when hazardous; otherwise relocation when
    refurbishable, younger than 3 and above 70 percent; sale when
    refurbishable, younger than 5 and above 40 percent but not both younger
    than 3 and above 70; repurposing when refurbishable lab equipment that
    is not both younger than 5 and above 40; stripping when not
    refurbishable and younger than 7; recycling in the remaining cases. *)
Theorem strategy_conditions h q b r cat i n m s l u d :
  let asset :=
    mkAsset i n m (VStr cat) (VFloat (Fin q)) (VInt b) (VBool r) (VBool h)
      s l u d in
  (evaluate_disposal_strategy asset = Ok HAZARDOUS_DISPOSAL <-> h = true)
  /\ (evaluate_disposal_strategy asset = Ok RELOCATE
      <-> h = false /\ r = true /\ (q < 3)%Q /\ 70 < b)
  /\ (evaluate_disposal_strategy asset = Ok MARKETPLACE
      <-> h = false /\ r = true /\ (q < 5)%Q /\ 40 < b
          /\ ~ ((q < 3)%Q /\ 70 < b))
  /\ (evaluate_disposal_strategy asset = Ok REPURPOSE
      <-> h = false /\ r = true /\ cat = "Lab Equipment"
          /\ ~ ((q < 5)%Q /\ 40 < b))
  /\ (evaluate_disposal_strategy asset = Ok STRIP_COMPONENTS
      <-> h = false /\ r = false /\ (q < 7)%Q)
  /\ (evaluate_disposal_strategy asset = Ok RECYCLE
      <-> h = false
          /\ ((r = true /\ cat <> "Lab Equipment"
               /\ ~ ((q < 5)%Q /\ 40 < b))
              \/ (r = false /\ (7 <= q)%Q))).
Proof.
  intros asset. subst asset. rewrite evaluate_typed. unfold classify, holds.
  cbn [DeviceCategory_value].
  destruct h, r; cbn [andb negb];
    destruct (Qlt_le_dec q 3), (Z_lt_dec 70 b), (Qlt_le_dec q 5),
      (Z_lt_dec 40 b), (string_dec cat "Lab Equipment"),
      (Qlt_le_dec q 7); cbn [andb negb];
    repeat split; intros;
    repeat match goal with
           | H : _ /\ _ |- _ => destruct H
           | H : _ \/ _ |- _ => destruct H
           | H : Ok _ = Ok _ |- _ => discriminate H
           | H : true = false |- _ => discriminate H
           | H : false = true |- _ => discriminate H
           end;
    try congruence; try lia; try lra;
    try (exfalso; lra); try (exfalso; lia);
    try solve [left; repeat split; try assumption; intros [? ?]; lra || lia];
    try solve [right; repeat split; assumption];
    try solve [intros [? ?]; lra || lia];
    try solve [exfalso; match goal with
                        | H : ~ _ |- _ => apply H; split; lra || lia
                        end].
Qed.

(** X3.  An asset whose age is nan or positive infinity is never relocated,
    sold or stripped, and its battery health is not looked at: it is
    disposed of as hazardous when hazardous, repurposed when refurbishable
    lab equipment, and recycled otherwise. *)
Theorem evaluate_age_not_comparable asset :
  age_years asset = VFloat NaN \/ age_years asset = VFloat (Inf false) ->
  evaluate_disposal_strategy asset
  = Ok (if truthy (is_hazardous asset) then HAZARDOUS_DISPOSAL
        else if py_eq (category asset) (VStr "Lab Equipment")
                && truthy (can_refurbish asset)
        then REPURPOSE
        else RECYCLE).
Proof.
  intros H. unfold evaluate_disposal_strategy, lt_int, and_then, bind.
  destruct (truthy (is_hazardous asset)); [reflexivity|].
  destruct H as [-> | ->]; cbn [as_number DeviceCategory_value];
    destruct (truthy (can_refurbish asset));
    destruct (py_eq (category asset) (VStr "Lab Equipment")); reflexivity.
Qed.

Lemma evaluate_age_not_comparable_witness :
  evaluate_disposal_strategy
    (mkAsset (VStr "ASSET-0001") (VStr "Scope") (VStr "T-100")
       (VStr "Lab Equipment") (VFloat NaN) (VStr "good") (VBool true)
       (VBool false) (VStr "Dormant") (VStr "Storage") VNone VNone)
  = Ok REPURPOSE.
Proof.
  exact (evaluate_age_not_comparable
           (mkAsset (VStr "ASSET-0001") (VStr "Scope") (VStr "T-100")
              (VStr "Lab Equipment") (VFloat NaN) (VStr "good") (VBool true)
              (VBool false) (VStr "Dormant") (VStr "Storage") VNone VNone)
           (or_introl eq_refl)).
Defined.

(** X4.  [update_status] sets the status, stamps [last_used] with the
    clock reading exactly when the new status equals "In Use", and touches
    no other attribute; the classifier returns after it what it returned
    before, so a current strategy stays current. *)
Theorem update_status_frame now new_status asset :
  status (update_status now new_status asset) = new_status
  /\ last_used (update_status now new_status asset)
     = (if py_eq new_status (VStr "In Use") then VDatetime now
        else last_used asset)
  /\ (forall f, f <> f_status -> f <> f_last_used ->
                getattr (update_status now new_status asset) f
                = getattr asset f)
  /\ evaluate_disposal_strategy (update_status now new_status asset)
     = evaluate_disposal_strategy asset
  /\ (strategy_current asset ->
      strategy_current (update_status now new_status asset)).
Proof.
  assert (E : evaluate_disposal_strategy (update_status now new_status asset)
              = evaluate_disposal_strategy asset).
  { unfold update_status. destruct asset.
    destruct (py_eq new_status (VStr "In Use")); reflexivity. }
  split; [|split; [|split; [|split; [exact E|]]]].
  - unfold update_status. destruct asset.
    destruct (py_eq new_status (VStr "In Use")); reflexivity.
  - unfold update_status. destruct asset.
    destruct (py_eq new_status (VStr "In Use")); reflexivity.
  - intros f N1 N2. unfold update_status. destruct asset.
    destruct (py_eq new_status (VStr "In Use")), f; cbn; congruence.
  - intros (d & Hd & Hs). exists d. rewrite E. split; [assumption|].
    rewrite <- Hs. unfold update_status. destruct asset.
    destruct (py_eq new_status (VStr "In Use")); reflexivity.
Qed.

(** ** More on identifiers *)

Lemma zeros_length k : String.length (zeros k) = k.
Proof. induction k; cbn; congruence. Qed.

Lemma append_length (s t : string) :
  String.length (s ++ t) = (String.length s + String.length t)%nat.
Proof. induction s; cbn; congruence. Qed.

Lemma format_04d_width_small :
  forallb (fun n => Nat.eqb (String.length (format_04d (Z.of_nat n))) 4)
    (seq 0 (Z.to_nat 10000)) = true.
Proof. vm_compute. reflexivity. Qed.

(** X5.  The number in an identifier is written with at least four digits,
    with exactly four up to 9999 and without padding above; different
    counters give different identifiers. *)
Theorem format_04d_identifiers :
  (forall z, 0 <= z -> (4 <= String.length (format_04d z))%nat)
  /\ (forall z, 0 <= z <= 9999 -> String.length (format_04d z) = 4%nat)
  /\ (forall z, 0 <= z ->
        (4 <= String.length (NilZero.string_of_uint (N.to_uint (Z.to_N z))))%nat ->
        format_04d z = NilZero.string_of_uint (N.to_uint (Z.to_N z)))
  /\ (forall a b, 0 <= a -> 0 <= b ->
        ("ASSET-" ++ format_04d a)%string = ("ASSET-" ++ format_04d b)%string ->
        a = b)
  /\ format_04d 1 = "0001" /\ format_04d 10000 = "10000".
Proof.
  split; [|split; [|split; [|split; [|split; reflexivity]]]].
  - intros z Hz. unfold format_04d.
    destruct (Z.ltb_spec z 0) as [H | _]; [lia|].
    unfold zfill. rewrite append_length, zeros_length. lia.
  - intros z Hz.
    pose proof format_04d_width_small as W. rewrite forallb_forall in W.
    specialize (W (Z.to_nat z)). rewrite Z2Nat.id in W by lia.
    apply Nat.eqb_eq, W, in_seq. lia.
  - intros z Hz L. unfold format_04d.
    destruct (Z.ltb_spec z 0) as [H | _]; [lia|].
    unfold zfill.
    replace (4 - _)%nat with 0%nat by lia. reflexivity.
  - exact asset_key_inj.
Qed.

(** ** More on adding, updating and deleting *)

Lemma CampusAsset_init_eq aid n m c a b r h asset :
  CampusAsset_init (VStr aid) n m c a b r h = Ok asset ->
  exists d,
    evaluate_disposal_strategy (new_asset aid n m c a b r h VNone) = Ok d
    /\ asset = new_asset aid n m c a b r h (VStrategy d).
Proof.
  unfold CampusAsset_init, bind, new_asset.
  destruct (evaluate_disposal_strategy _) as [d|e|];
    [|discriminate|discriminate].
  intros [= <-]. eauto.
Qed.

Lemma evaluate_numbers_ok asset x y :
  as_number (age_years asset) = Some x ->
  as_number (battery_health asset) = Some y ->
  exists d, evaluate_disposal_strategy asset = Ok d.
Proof.
  intros Hx Hy.
  unfold evaluate_disposal_strategy, lt_int, gt_int, and_then, bind.
  rewrite Hx, Hy.
  destruct (truthy (is_hazardous asset)); [eauto|].
  destruct x as [q | neg |], y as [p | neg' |];
    destruct (truthy (can_refurbish asset));
    repeat match goal with
           | |- context [Qltb ?x ?y] => destruct (Qltb x y)
           | |- context [py_eq ?x ?y] => destruct (py_eq x y)
           | |- context [if ?c then _ else _] => destruct c
           end; cbn; eauto.
Qed.

Lemma dict_set_same {V} (d : list (string * V)) k v :
  dict_get d k = Some v -> dict_set d k v = d.
Proof.
  induction d as [|[k' v'] d IH]; cbn; [discriminate|].
  destruct (String.eqb k' k).
  - now intros [= ->].
  - intros H. now rewrite IH.
Qed.

Lemma dict_del_set_new {V} (d : list (string * V)) k v :
  ~ In k (dict_keys d) -> dict_del (dict_set d k v) k = d.
Proof.
  induction d as [|[k' v'] d IH]; cbn; intros H.
  - now rewrite String.eqb_refl.
  - destruct (String.eqb_spec k' k) as [-> | N]; [tauto|].
    cbn. apply String.eqb_neq in N. rewrite N. f_equal. apply IH. tauto.
Qed.

Lemma list_remove_app_new l k :
  ~ In (VStr k) l -> list_remove (l ++ [VStr k]) (VStr k) = l.
Proof.
  induction l as [|y l IH]; cbn; intros H.
  - now rewrite String.eqb_refl.
  - destruct (py_eq y (VStr k)) eqn:E.
    + apply py_eq_str in E. tauto.
    + f_equal. apply IH. tauto.
Qed.

Lemma list_contains_app_new l k :
  list_contains (l ++ [VStr k]) (VStr k) = true.
Proof. apply list_contains_str, in_or_app. right. now left. Qed.

Lemma marketplace_strategy_eqb v :
  py_eq (VStrategy v) (VStrategy MARKETPLACE)
  = DisposalStrategy_eqb v MARKETPLACE.
Proof. reflexivity. Qed.

(** X7.  [add_asset] completes on any inventory when the age and the
    battery health given are numbers, whatever the other attributes are. *)
Theorem add_asset_completes_on_numbers n m c a b r h self :
  as_number a <> None ->
  as_number b <> None ->
  exists aid self', add_asset n m c a b r h self = Ok (aid, self').
Proof.
  intros Ha Hb.
  destruct (as_number a) as [x|] eqn:Ex; [|contradiction].
  destruct (as_number b) as [y|] eqn:Ey; [|contradiction].
  unfold add_asset, CampusAsset_init, bind.
  destruct (evaluate_numbers_ok
              (mkAsset (VStr ("ASSET-" ++ format_04d (next_id self))%string)
                 n m c a b r h (VStr "Dormant") (VStr "Storage") VNone VNone)
              x y Ex Ey) as (d & ->).
  eauto.
Qed.

Lemma add_asset_completes_witness :
  exists aid self',
    add_asset (VInt 7) VNone (VStr "Laptop") (VBool true) (VFloat NaN)
      (VStr "yes") VNone CampusInventory_init = Ok (aid, self').
Proof.
  apply add_asset_completes_on_numbers; discriminate.
Defined.

Lemma kwargs_value_unique (kwargs : list (string * value)) k v w :
  NoDup (map fst kwargs) ->
  In (k, v) kwargs -> In (k, w) kwargs -> v = w.
Proof.
  induction kwargs as [|[k0 v0] rest IH]; cbn; [tauto|].
  intros ND. inversion ND as [|? ? Hk ND']; subst.
  assert (F : forall x, In (k0, x) rest -> False).
  { intros x Hx. apply Hk. change k0 with (fst (k0, x)). now apply in_map. }
  intros [Hv | Hv] [Hw | Hw].
  - congruence.
  - injection Hv as -> ->. exfalso. eauto.
  - injection Hw as -> ->. exfalso. eauto.
  - auto.
Qed.

Lemma getattr_setattr_other asset f g v :
  f <> g -> getattr (setattr asset g v) f = getattr asset f.
Proof. intros N. destruct asset, f, g; cbn; congruence. Qed.

(** X11.  A completed update of an asset that is there gives each
    attribute the mapping names the value supplied for it, leaves the
    other attributes as they were, except the strategy, which is the
    classifier's for the new attributes; the other entries of the map, its
    keys, the counter and the marketplace index are as before. *)
Theorem update_asset_sets_fields aid kwargs self self' :
  update_asset aid kwargs self = Ok (true, self') ->
  NoDup (map fst kwargs) ->
  exists asset asset',
    dict_get (assets self) aid = Some asset
    /\ dict_get (assets self') aid = Some asset'
    /\ (forall f v, f <> f_disposal_strategy ->
                    In (field_name f, v) kwargs -> getattr asset' f = v)
    /\ (forall f, f <> f_disposal_strategy ->
                  ~ In (field_name f) (map fst kwargs) ->
                  getattr asset' f = getattr asset f)
    /\ strategy_current asset'
    /\ (forall k, k <> aid ->
                  dict_get (assets self') k = dict_get (assets self) k)
    /\ dict_keys (assets self') = dict_keys (assets self)
    /\ next_id self' = next_id self
    /\ marketplace_items self' = marketplace_items self.
Proof.
  intros U ND. apply update_asset_inv in U.
  destruct U as [(? & _) | (_ & asset & asset1 & d & G & A & E & ->)];
    [discriminate|].
  exists asset. eexists. cbn [assets next_id marketplace_items].
  split; [exact G|]. split; [apply dict_get_set_eq|].
  split; [|split; [|split; [|split; [|split; [|split; reflexivity]]]]].
  - intros f v N Hin. rewrite getattr_setattr_other by assumption.
    assert (I : In (field_name f) (map fst kwargs))
      by (change (field_name f) with (fst (field_name f, v));
          now apply in_map).
    destruct (apply_kwargs_sets f kwargs asset asset1 A I) as (w & Hw & ->).
    eauto using kwargs_value_unique.
  - intros f N Hn. rewrite getattr_setattr_other by assumption.
    now apply (apply_kwargs_keeps f kwargs asset asset1 A).
  - now apply setattr_strategy_current.
  - intros k N. now apply dict_get_set_ne.
  - apply dict_keys_set_old. eauto using dict_get_key.
Qed.

(** X12.  After a completed update that sets one attribute of an asset,
    other than the strategy, to a value equal to itself, a search for that
    attribute and value finds the asset. *)
Theorem update_then_search_finds f v aid self self' :
  update_asset aid [(field_name f, v)] self = Ok (true, self') ->
  f <> f_disposal_strategy ->
  py_eq v v = true ->
  exists asset' results,
    dict_get (assets self') aid = Some asset'
    /\ search_assets [(field_name f, v)] self' = Ok (results, self')
    /\ In asset' results.
Proof.
  intros U N Ev. apply update_asset_inv in U.
  destruct U as [(? & _) | (_ & asset & asset1 & d & G & A & E & ->)];
    [discriminate|].
  rewrite apply_kwargs_cons, resolve_field_name in A.
  cbn [apply_kwargs] in A. injection A as <-.
  eexists. eexists. cbn [assets].
  split; [apply dict_get_set_eq|].
  split.
  { apply search_assets_filter. repeat constructor. cbn [fst].
    now destruct f. }
  apply filter_In. split.
  - cbn [assets]. eapply dict_get_value. apply dict_get_set_eq.
  - cbn [forallb]. unfold criterion_holds. cbn [fst snd].
    rewrite resolve_field_name.
    rewrite getattr_setattr_other by assumption.
    rewrite getattr_setattr, Ev. reflexivity.
Qed.

Section MoreInventory.
Variable str_lower : string -> string.
Variable isoformat : datetime -> string.

Local Abbreviation perform := (perform str_lower isoformat).
Local Abbreviation reachable := (reachable str_lower isoformat).

(** X6.  On an inventory a run can be in, [add_asset] returns the
    identifier made of the counter, which is no key yet, advances the
    counter by one, and files under it, behind the entries there, which it
    leaves alone, an asset with the attributes given, status "Dormant",
    location "Storage", no last-used stamp and the strategy the classifier
    returns; the identifier is appended to the marketplace index exactly
    when that strategy is Marketplace. *)
Theorem add_asset_stores n m c a b r h self aid self' :
  reachable self ->
  add_asset n m c a b r h self = Ok (aid, self') ->
  aid = ("ASSET-" ++ format_04d (next_id self))%string
  /\ next_id self' = next_id self + 1
  /\ ~ In aid (dict_keys (assets self))
  /\ dict_keys (assets self') = dict_keys (assets self) ++ [aid]
  /\ (forall k, k <> aid ->
                dict_get (assets self') k = dict_get (assets self) k)
  /\ exists d,
      evaluate_disposal_strategy (new_asset aid n m c a b r h VNone) = Ok d
      /\ get_asset aid self'
         = Ok (Some (new_asset aid n m c a b r h (VStrategy d)), self')
      /\ marketplace_items self'
         = if DisposalStrategy_eqb d MARKETPLACE
           then marketplace_items self ++ [VStr aid]
           else marketplace_items self.
Proof.
  intros R A. pose proof (reachable_wf _ _ _ R) as W.
  apply add_asset_inv in A. destruct A as (asset & Eid & I & ->).
  pose proof (fresh_key self W) as F. rewrite <- Eid in F.
  apply CampusAsset_init_eq in I. destruct I as (d & Ed & ->).
  unfold _process_asset, get_asset.
  cbn [disposal_strategy new_asset asset_id].
  rewrite marketplace_strategy_eqb.
  assert (K : dict_keys (dict_set (assets self) aid
                           (new_asset aid n m c a b r h (VStrategy d)))
              = dict_keys (assets self) ++ [aid])
    by now apply dict_keys_set_new.
  destruct (DisposalStrategy_eqb d MARKETPLACE) eqn:M;
    cbn [assets next_id marketplace_items];
    (split; [assumption|]); (split; [reflexivity|]);
    (split; [assumption|]); (split; [assumption|]);
    (split; [intros k N; now apply dict_get_set_ne|]);
    exists d; rewrite dict_get_set_eq, M; auto.
Qed.

Lemma perform_next_id q self r self' :
  perform q self = Ok (r, self') ->
  next_id self' = next_id self + match r with RId _ => 1 | _ => 0 end
  /\ forall aid,
      r = RId aid -> aid = ("ASSET-" ++ format_04d (next_id self))%string.
Proof.
  intros P. destruct (read_only q) eqn:RO.
  - pose proof (perform_read_only _ _ q self r self' RO P) as ->.
    destruct q; try discriminate;
      apply answer_inv in P; destruct P as (x & _ & ->);
      (split; [lia | discriminate]).
  - destruct q; try discriminate;
      apply answer_inv in P; destruct P as (x & P & ->).
    + apply add_asset_inv in P. destruct P as (asset & Eid & _ & ->).
      destruct (_process_asset_frame asset
                  (mkInventory (dict_set (assets self) x asset)
                     (next_id self + 1) (marketplace_items self)
                     (components_library self))) as (_ & -> & _).
      cbn [next_id]. split; [lia|]. now intros aid [= <-].
    + apply update_asset_inv in P.
      destruct P as [(_ & -> & _) | (_ & asset & asset1 & d & _ & _ & _ & ->)];
        cbn [next_id]; (split; [lia | discriminate]).
    + apply delete_asset_inv in P.
      destruct P as [(_ & -> & _) | (_ & _ & _ & -> & _)];
        (split; [lia | discriminate]).
Qed.

Lemma run_returned_ids qs : forall self rs self',
  run str_lower isoformat qs self = Ok (rs, self') ->
  next_id self' = next_id self + Z.of_nat (List.length (returned_ids rs))
  /\ forall aid,
      In aid (returned_ids rs) ->
      exists j, next_id self <= j < next_id self'
                /\ aid = ("ASSET-" ++ format_04d j)%string.
Proof.
  induction qs as [|q qs IH]; intros self rs self' H.
  - injection H as <- <-. cbn. split; [lia | tauto].
  - cbn [run] in H. unfold bind in H.
    destruct (perform q self) as [[r s1]|e|] eqn:P;
      [|discriminate|discriminate].
    destruct (run str_lower isoformat qs s1) as [[rs1 s2]|e|] eqn:E;
      [|discriminate|discriminate].
    injection H as <- <-.
    destruct (IH _ _ _ E) as (N & I).
    destruct (perform_next_id _ _ _ _ P) as (L & A).
    destruct r; cbn [returned_ids flat_map app List.length];
      fold (returned_ids rs1);
      try (split; [lia|]; intros aid Hin;
           destruct (I aid Hin) as (j & Hj & ->); exists j; split; [lia|auto]).
    pose proof (A asset_id0 eq_refl) as ->.
    split; [lia|]. intros aid [<- | Hin].
    + exists (next_id self). split; [lia | reflexivity].
    + destruct (I aid Hin) as (j & Hj & ->). exists j. split; [lia|auto].
Qed.

Lemma run_returned_ids_nodup qs : forall self rs self',
  1 <= next_id self ->
  run str_lower isoformat qs self = Ok (rs, self') ->
  NoDup (returned_ids rs).
Proof.
  induction qs as [|q qs IH]; intros self rs self' W H.
  - injection H as <- <-. constructor.
  - cbn [run] in H. unfold bind in H.
    destruct (perform q self) as [[r s1]|e|] eqn:P;
      [|discriminate|discriminate].
    destruct (run str_lower isoformat qs s1) as [[rs1 s2]|e|] eqn:E;
      [|discriminate|discriminate].
    injection H as <- <-.
    destruct (perform_next_id _ _ _ _ P) as (L & A).
    assert (ND : NoDup (returned_ids rs1))
      by (apply (IH s1 rs1 s2); [destruct r; lia | exact E]).
    destruct r; cbn [returned_ids flat_map app];
      fold (returned_ids rs1); try assumption.
    pose proof (A asset_id0 eq_refl) as ->.
    constructor; [|assumption]. intros Hin.
    destruct (run_returned_ids _ _ _ _ E) as (_ & I).
    destruct (I _ Hin) as (j & Hj & Ej).
    apply asset_key_inj in Ej; lia.
Qed.

(** X8.  Along any run of calls from an inventory a run can be in, the
    identifiers [add_asset] returns are pairwise different and none is a
    key the inventory held at the start, whatever was deleted in between;
    the counter never decreases and grows by exactly one for each
    identifier handed out. *)
Theorem identifiers_never_reused qs self rs self' :
  reachable self ->
  run str_lower isoformat qs self = Ok (rs, self') ->
  NoDup (returned_ids rs)
  /\ (forall aid, In aid (returned_ids rs) ->
                  ~ In aid (dict_keys (assets self)))
  /\ next_id self' = next_id self + Z.of_nat (List.length (returned_ids rs)).
Proof.
  intros R H. pose proof (reachable_wf _ _ _ R) as W.
  destruct (run_returned_ids _ _ _ _ H) as (N & I).
  split; [|split; [|exact N]].
  - exact (run_returned_ids_nodup _ _ _ _ (wf_next_id _ W) H).
  - intros aid Hin K.
    destruct (I aid Hin) as (j & Hj & ->).
    destruct (wf_keys _ W _ K) as (i & Hi & E).
    apply asset_key_inj in E; lia.
Qed.

(** X9.  On an inventory a run can be in, an update with no field change
    of an asset that is there returns [True] and leaves the whole inventory
    as it is. *)
Theorem update_asset_empty_is_identity aid self :
  reachable self ->
  dict_contains (assets self) aid = true ->
  update_asset aid [] self = Ok (true, self).
Proof.
  intros R C. pose proof (reachable_wf _ _ _ R) as W.
  unfold dict_contains in C. unfold update_asset.
  cbn [binds_parameter map existsb].
  destruct (dict_get (assets self) aid) as [asset|] eqn:G; [|discriminate].
  cbn [apply_kwargs bind].
  pose proof (wf_current _ W) as Cur. unfold all_current in Cur.
  rewrite Forall_forall in Cur.
  destruct (Cur asset (dict_get_value _ _ _ G)) as (d & -> & Hs).
  cbn [bind].
  replace (setattr asset f_disposal_strategy (VStrategy d)) with asset
    by (destruct asset; cbn in Hs |- *; now rewrite Hs).
  rewrite (dict_set_same _ _ _ G). now destruct self.
Qed.

(** X10.  An update of an identifier that is no key of the map returns
    [False] and leaves the inventory as it is, whatever the mapping, unless
    a keyword bears the name of a parameter of the method, [self] or
    [asset_id]: then the call raises a TypeError.  An entry of the mapping
    whose name is no attribute of the asset makes no difference to what an
    update does. *)
Theorem update_asset_ignores_unknown :
  (forall aid kwargs self,
      ~ In "self" (map fst kwargs) ->
      ~ In "asset_id" (map fst kwargs) ->
      dict_contains (assets self) aid = false ->
      update_asset aid kwargs self = Ok (false, self))
  /\ (forall asset aid key v kwargs self,
         hasattr asset key = Ok false ->
         key <> "self" ->
         update_asset aid ((key, v) :: kwargs) self
         = update_asset aid kwargs self)
  /\ (forall aid kwargs self,
         In "self" (map fst kwargs) \/ In "asset_id" (map fst kwargs) ->
         update_asset aid kwargs self = Raise TypeError).
Proof.
  split; [|split; [|exact update_asset_binds]].
  - intros aid kwargs self N1 N2 C. unfold dict_contains in C.
    unfold update_asset.
    destruct (binds_parameter _ kwargs) eqn:B.
    { apply binds_parameter_In in B.
      destruct B as (key & Hk & [<- | [<- | []]]); contradiction. }
    now destruct (dict_get (assets self) aid).
  - intros asset0 aid key v kwargs self H N. unfold hasattr in H.
    assert (R : resolve key = Missing)
      by (destruct (resolve key); congruence).
    unfold update_asset.
    assert (B : binds_parameter ["self"; "asset_id"] ((key, v) :: kwargs)
                = binds_parameter ["self"; "asset_id"] kwargs).
    { unfold binds_parameter. cbn [map fst existsb].
      assert (N' : key <> "asset_id") by (intros ->; discriminate R).
      apply String.eqb_neq in N, N'. now rewrite N, N'. }
    rewrite B. destruct (binds_parameter _ kwargs); [reflexivity|].
    destruct (dict_get (assets self) aid) as [asset|]; [|reflexivity].
    now rewrite apply_kwargs_cons, R.
Qed.

(** X13.  On an inventory a run can be in, deleting the asset that
    [add_asset] has just added returns [True] and gives back the asset map
    and the marketplace index as they were before the addition; only the
    counter stays advanced. *)
Theorem add_then_delete_restores n m c a b r h self aid self1 :
  reachable self ->
  add_asset n m c a b r h self = Ok (aid, self1) ->
  exists self2,
    delete_asset aid self1 = Ok (true, self2)
    /\ assets self2 = assets self
    /\ marketplace_items self2 = marketplace_items self
    /\ next_id self2 = next_id self + 1.
Proof.
  intros R A. pose proof (reachable_wf _ _ _ R) as W.
  apply add_asset_inv in A. destruct A as (asset & Eid & I & ->).
  pose proof (fresh_key self W) as F. rewrite <- Eid in F.
  apply CampusAsset_init_inv in I. destruct I as (_ & Iid & _).
  assert (M : ~ In (VStr aid) (marketplace_items self)).
  { intros Hv. destruct (wf_marketplace _ W _ Hv) as (k & [= <-] & Hk).
    contradiction. }
  assert (C : dict_contains (dict_set (assets self) aid asset) aid = true)
    by (unfold dict_contains; now rewrite dict_get_set_eq).
  unfold _process_asset, delete_asset.
  destruct (py_eq (disposal_strategy asset) (VStrategy MARKETPLACE));
    cbn [assets next_id marketplace_items components_library];
    rewrite C, ?Iid.
  - rewrite list_contains_app_new.
    cbn [assets next_id marketplace_items components_library].
    eexists. split; [reflexivity|].
    cbn [assets next_id marketplace_items].
    rewrite dict_del_set_new, list_remove_app_new by assumption. auto.
  - assert (L : list_contains (marketplace_items self) (VStr aid) = false).
    { destruct (list_contains _ _) eqn:L; [|reflexivity].
      apply list_contains_str in L. contradiction. }
    rewrite L. eexists. split; [reflexivity|].
    cbn [assets next_id marketplace_items].
    rewrite dict_del_set_new by assumption. auto.
Qed.

(** X14.  On an inventory a run can be in, a second deletion of the same
    identifier returns [False] and changes nothing, whether the first one
    found the asset or not. *)
Theorem delete_asset_twice aid self b self1 :
  reachable self ->
  delete_asset aid self = Ok (b, self1) ->
  delete_asset aid self1 = Ok (false, self1).
Proof.
  intros R D. pose proof (reachable_wf _ _ _ R) as W.
  apply delete_asset_inv in D.
  assert (C : dict_contains (assets self1) aid = false).
  { destruct D as [(_ & -> & C) | (_ & _ & -> & _)]; [assumption|].
    destruct (dict_contains _ aid) eqn:C; [|reflexivity].
    apply dict_contains_In in C. exfalso. revert C.
    apply dict_keys_del_gone. exact (wf_keys_nodup _ W). }
  unfold delete_asset. now rewrite C.
Qed.

Lemma filter_by_asset_id (d : list (string * CampusAsset)) aid :
  NoDup (dict_keys d) ->
  (forall k asset, In (k, asset) d -> asset_id asset = VStr k) ->
  filter (fun asset => py_eq (asset_id asset) (VStr aid) && true)
    (dict_values d)
  = match dict_get d aid with
    | Some asset => [asset]
    | None => []
    end.
Proof.
  induction d as [|[k asset] d IH]; intros ND H; [reflexivity|].
  cbn [dict_values map snd filter dict_get].
  inversion ND as [|? ? Hk ND']; subst.
  rewrite (H k asset (or_introl eq_refl)).
  change (py_eq (VStr k) (VStr aid)) with (String.eqb k aid).
  fold (dict_values d).
  rewrite (IH ND') by (intros; apply H; now right).
  destruct (String.eqb_spec k aid) as [-> | N]; cbn [andb]; [|reflexivity].
  apply dict_get_None in Hk. now rewrite Hk.
Qed.

(** X15.  On an inventory a run can be in whose stored identifiers are the
    keys, a search for an [asset_id] returns the one asset [get_asset]
    returns for it, or nothing when [get_asset] returns [None]. *)
Theorem search_by_asset_id_is_get aid self :
  reachable self ->
  ids_match self ->
  search_assets [("asset_id", VStr aid)] self
  = Ok (match dict_get (assets self) aid with
        | Some asset => [asset]
        | None => []
        end, self)
  /\ get_asset aid self = Ok (dict_get (assets self) aid, self).
Proof.
  intros R M. pose proof (reachable_wf _ _ _ R) as W.
  split; [|reflexivity].
  rewrite search_assets_filter by (repeat constructor). do 2 f_equal.
  rewrite <- (filter_by_asset_id _ aid (wf_keys_nodup _ W)).
  - apply filter_ext. intros asset. reflexivity.
  - intros k asset Hin. apply M.
    apply In_dict_get; [exact (wf_keys_nodup _ W) | assumption].
Qed.
End MoreInventory.

Lemma update_asset_sets_fields_witness :
  exists asset',
    dict_get
      [("ASSET-0001",
        setattr (setattr laptop f_battery_health (VInt 60))
          f_disposal_strategy (VStrategy MARKETPLACE))] "ASSET-0001"
    = Some asset'
    /\ getattr asset' f_battery_health = VInt 60
    /\ getattr asset' f_name = VStr "Laptop".
Proof.
  destruct (update_asset_sets_fields "ASSET-0001"
              [("battery_health", VInt 60)] one_laptop _ eq_refl
              ltac:(repeat constructor; cbn; tauto))
    as (asset & asset' & G & G' & S & K & _).
  exists asset'. split; [exact G'|]. split.
  - apply (S f_battery_health); [discriminate | now left].
  - rewrite (K f_name); [|discriminate | cbn; intros [E | []]; discriminate E].
    cbn in G. now injection G as <-.
Defined.

Lemma update_then_search_witness :
  exists asset' results,
    dict_get
      [("ASSET-0001", setattr laptop f_status (VStr "In Use"))] "ASSET-0001"
    = Some asset'
    /\ search_assets [("status", VStr "In Use")]
         (mkInventory
            [("ASSET-0001", setattr laptop f_status (VStr "In Use"))]
            2 [] [])
       = Ok (results,
             mkInventory
               [("ASSET-0001", setattr laptop f_status (VStr "In Use"))]
               2 [] [])
    /\ In asset' results.
Proof.
  exact (update_then_search_finds f_status (VStr "In Use") "ASSET-0001"
           one_laptop _ eq_refl ltac:(discriminate) eq_refl).
Defined.

Lemma add_asset_stores_witness :
  reachable lower_ascii isoformat_decimal one_laptop
  /\ add_asset (VStr "MacBook Pro") (VStr "M1-2021") (VStr "Laptop")
       (VFloat (Fin 4)) (VInt 90) (VBool true) (VBool false) one_laptop
     = Ok ("ASSET-0002",
           mkInventory
             [("ASSET-0001", laptop);
              ("ASSET-0002",
               new_asset "ASSET-0002" (VStr "MacBook Pro") (VStr "M1-2021")
                 (VStr "Laptop") (VFloat (Fin 4)) (VInt 90) (VBool true)
                 (VBool false) (VStrategy MARKETPLACE))]
             3 [VStr "ASSET-0002"] [])
  /\ "ASSET-0002" = ("ASSET-" ++ format_04d (next_id one_laptop))%string.
Proof.
  split; [exact one_laptop_reachable|]. split; [reflexivity|].
  exact (proj1 (add_asset_stores lower_ascii isoformat_decimal
                  (VStr "MacBook Pro") (VStr "M1-2021") (VStr "Laptop")
                  (VFloat (Fin 4)) (VInt 90) (VBool true) (VBool false)
                  one_laptop "ASSET-0002" _ one_laptop_reachable eq_refl)).
Defined.

Lemma identifiers_never_reused_witness :
  reachable lower_ascii isoformat_decimal one_laptop
  /\ NoDup ["ASSET-0002"; "ASSET-0003"]
  /\ ~ In "ASSET-0003" (dict_keys (assets one_laptop)).
Proof.
  split; [exact one_laptop_reachable|].
  destruct (identifiers_never_reused lower_ascii isoformat_decimal
              [AddAsset (VStr "Bulb") (VStr "P-12W") (VStr "Consumable")
                 (VFloat (Fin (1 # 2))) (VInt 100) (VBool false) (VBool true);
               DeleteAsset "ASSET-0002";
               AddAsset (VStr "Bulb") (VStr "P-12W") (VStr "Consumable")
                 (VFloat (Fin (1 # 2))) (VInt 100) (VBool false) (VBool true)]
              one_laptop _ _ one_laptop_reachable eq_refl)
    as (N & K & _).
  split; [exact N|]. apply K. right. now left.
Defined.

Lemma update_asset_empty_witness :
  reachable lower_ascii isoformat_decimal one_laptop
  /\ dict_contains (assets one_laptop) "ASSET-0001" = true
  /\ update_asset "ASSET-0001" [] one_laptop = Ok (true, one_laptop).
Proof.
  split; [exact one_laptop_reachable|]. split; [reflexivity|].
  exact (update_asset_empty_is_identity lower_ascii isoformat_decimal
           "ASSET-0001" one_laptop one_laptop_reachable eq_refl).
Defined.

Lemma add_then_delete_witness :
  reachable lower_ascii isoformat_decimal one_laptop
  /\ exists self2,
      delete_asset "ASSET-0002"
        (mkInventory
           [("ASSET-0001", laptop);
            ("ASSET-0002",
             new_asset "ASSET-0002" (VStr "MacBook Pro") (VStr "M1-2021")
               (VStr "Laptop") (VFloat (Fin 4)) (VInt 90) (VBool true)
               (VBool false) (VStrategy MARKETPLACE))]
           3 [VStr "ASSET-0002"] [])
      = Ok (true, self2)
      /\ assets self2 = assets one_laptop
      /\ marketplace_items self2 = marketplace_items one_laptop
      /\ next_id self2 = next_id one_laptop + 1.
Proof.
  split; [exact one_laptop_reachable|].
  exact (add_then_delete_restores lower_ascii isoformat_decimal
           (VStr "MacBook Pro") (VStr "M1-2021") (VStr "Laptop")
           (VFloat (Fin 4)) (VInt 90) (VBool true) (VBool false)
           one_laptop "ASSET-0002" _ one_laptop_reachable eq_refl).
Defined.

Lemma delete_asset_twice_witness :
  reachable lower_ascii isoformat_decimal one_macbook
  /\ delete_asset "ASSET-0001" one_macbook
     = Ok (true, mkInventory [] 2 [] [])
  /\ delete_asset "ASSET-0001" (mkInventory [] 2 [] [])
     = Ok (false, mkInventory [] 2 [] []).
Proof.
  split; [exact one_macbook_reachable|]. split; [reflexivity|].
  exact (delete_asset_twice lower_ascii isoformat_decimal "ASSET-0001"
           one_macbook true _ one_macbook_reachable eq_refl).
Defined.

Lemma search_by_asset_id_witness :
  reachable lower_ascii isoformat_decimal one_laptop
  /\ ids_match one_laptop
  /\ search_assets [("asset_id", VStr "ASSET-0001")] one_laptop
     = Ok ([laptop], one_laptop).
Proof.
  split; [exact one_laptop_reachable|].
  split; [exact one_laptop_ids_match|].
  exact (proj1 (search_by_asset_id_is_get lower_ascii isoformat_decimal
                  "ASSET-0001" one_laptop one_laptop_reachable
                  one_laptop_ids_match)).
Defined.

(** ** More on the queries *)

Lemma filter_andb {A} (p q : A -> bool) (l : list A) :
  filter (fun x => p x && q x) l = filter q (filter p l).
Proof.
  induction l as [|x l IH]; [reflexivity|]. cbn.
  destruct (p x); cbn; [destruct (q x)|]; now rewrite IH.
Qed.

Lemma plain_names_app c1 c2 :
  plain_names (c1 ++ c2) <-> plain_names c1 /\ plain_names c2.
Proof. apply Forall_app. Qed.

(** X16.  For criteria under plain names, searching on two sets of
    criteria together returns what the second set keeps of the result of
    the first, so more criteria never add an asset; the order in which the
    criteria are given makes no difference; and every asset returned is an
    asset of the map. *)
Theorem search_assets_narrows c1 c2 self :
  plain_names (c1 ++ c2) ->
  (exists r1,
      search_assets c1 self = Ok (r1, self)
      /\ search_assets (c1 ++ c2) self
         = Ok (filter (fun asset =>
                         match criteria_match asset c2 with
                         | Ok matched => matched
                         | _ => false
                         end) r1, self))
  /\ search_assets (c1 ++ c2) self = search_assets (c2 ++ c1) self
  /\ (forall results asset,
         search_assets c1 self = Ok (results, self) ->
         In asset results -> In asset (dict_values (assets self))).
Proof.
  intros P. pose proof (proj1 (plain_names_app c1 c2) P) as [P1 P2].
  assert (P' : plain_names (c2 ++ c1)) by (apply plain_names_app; auto).
  split; [|split].
  - eexists. split; [now apply search_assets_filter|].
    rewrite search_assets_filter, <- filter_andb by assumption.
    do 2 f_equal. apply filter_ext. intros asset.
    rewrite (criteria_match_forallb asset c2 P2). apply forallb_app.
  - rewrite !search_assets_filter by assumption. do 2 f_equal.
    apply filter_ext. intros asset. rewrite !forallb_app. apply andb_comm.
  - intros results asset H Hin. eauto using search_assets_incl.
Qed.

Lemma search_assets_narrows_witness :
  plain_names ([("name", VStr "Laptop")] ++ [("status", VStr "Dormant")])
  /\ search_assets ([("name", VStr "Laptop")] ++ [("status", VStr "Dormant")])
       one_laptop
     = search_assets
         ([("status", VStr "Dormant")] ++ [("name", VStr "Laptop")])
         one_laptop.
Proof.
  assert (P : plain_names
                ([("name", VStr "Laptop")] ++ [("status", VStr "Dormant")]))
    by (repeat constructor).
  split; [exact P|].
  exact (proj1 (proj2 (search_assets_narrows [("name", VStr "Laptop")]
                         [("status", VStr "Dormant")] one_laptop P))).
Defined.

Section MoreQueries.
Variable str_lower : string -> string.
Variable isoformat : datetime -> string.

Local Abbreviation reachable := (reachable str_lower isoformat).

Lemma dormant_matches_raises device_name device_category l :
  Exists (fun asset => ~ is_str (name asset)) l ->
  dormant_matches str_lower device_name device_category l
  = Raise AttributeError.
Proof.
  induction l as [|asset l IH]; intros H; [inversion H|].
  cbn [dormant_matches].
  destruct (name asset) eqn:N; cbn [lower bind]; try reflexivity.
  rewrite IH; [reflexivity|].
  inversion H as [? ? Hh | ? ? Ht]; subst; [|assumption].
  exfalso. apply Hh. rewrite N. now eexists.
Qed.

(** X17.  When the name of some asset of the map is no string, the
    procurement check raises an AttributeError, whatever device is asked
    about. *)
Theorem check_procurement_prevention_raises device_name device_category
  self :
  Exists (fun asset => ~ is_str (name asset)) (dict_values (assets self)) ->
  check_procurement_prevention str_lower device_name device_category self
  = Raise AttributeError.
Proof.
  intros H. unfold check_procurement_prevention.
  now rewrite dormant_matches_raises.
Qed.

Lemma dormant_matches_sound device_name device_category l : forall ms,
  dormant_matches str_lower device_name device_category l = Ok ms ->
  forall asset,
    In asset ms ->
    In asset l /\ py_eq (status asset) (VStr "Dormant") = true.
Proof.
  induction l as [|a l IH]; intros ms H asset Hin.
  - injection H as <-. contradiction.
  - cbn [dormant_matches] in H. unfold bind in H.
    destruct (lower str_lower (name a)) as [n|e|]; [|discriminate|discriminate].
    destruct (dormant_matches _ _ _ l) as [ms'|e|];
      [|discriminate|discriminate].
    injection H as <-.
    destruct (String.eqb n (str_lower device_name)
              && py_eq (status a) (VStr "Dormant")
              && py_eq (category a) device_category) eqn:K.
    + apply andb_true_iff in K. destruct K as [K _].
      apply andb_true_iff in K. destruct K as [_ K].
      destruct Hin as [<- | Hin]; [split; [now left | assumption]|].
      destruct (IH ms' eq_refl asset Hin). split; [now right | assumption].
    + destruct (IH ms' eq_refl asset Hin). split; [now right | assumption].
Qed.

(** X18.  After a completed update that sets the status of an asset to a
    string other than "Dormant", the procurement check does not return
    that asset, whatever device is asked about. *)
Theorem updated_status_not_flagged aid st self self' device_name
  device_category ms asset' :
  update_asset aid [("status", VStr st)] self = Ok (true, self') ->
  st <> "Dormant" ->
  check_procurement_prevention str_lower device_name device_category self'
  = Ok (Some ms, self') ->
  dict_get (assets self') aid = Some asset' ->
  ~ In asset' ms.
Proof.
  intros U N C G Hin. apply update_asset_inv in U.
  destruct U as [(? & _) | (_ & asset & asset1 & d & Ga & A & E & ->)];
    [discriminate|].
  change "status" with (field_name f_status) in A.
  rewrite apply_kwargs_cons, resolve_field_name in A.
  cbn [apply_kwargs] in A. injection A as <-.
  cbn [assets] in G. rewrite dict_get_set_eq in G. injection G as <-.
  unfold check_procurement_prevention, bind in C.
  destruct (dormant_matches _ _ _ _) as [ms'|e|] eqn:D;
    [|discriminate|discriminate].
  destruct ms' as [|x ms']; [discriminate|]. injection C as <-.
  destruct (dormant_matches_sound _ _ _ _ D _ Hin) as (_ & S).
  apply py_eq_str in S. apply N.
  destruct asset. cbn in S. congruence.
Qed.
End MoreQueries.

Lemma check_procurement_prevention_raises_witness :
  check_procurement_prevention lower_ascii "Laptop" (VStr "Laptop")
    (mkInventory [("ASSET-0001", setattr laptop f_name (VInt 5))] 2 [] [])
  = Raise AttributeError.
Proof.
  apply check_procurement_prevention_raises.
  left. intros [s H]. discriminate H.
Defined.

Lemma updated_status_not_flagged_witness :
  ~ In (setattr laptop f_status (VStr "In Use"))
      [setattr laptop f_asset_id (VStr "ASSET-0002")].
Proof.
  exact (updated_status_not_flagged lower_ascii "ASSET-0001" "In Use"
           (mkInventory
              [("ASSET-0001", laptop);
               ("ASSET-0002", setattr laptop f_asset_id (VStr "ASSET-0002"))]
              3 [] [])
           _ "LAPTOP" (VStr "Laptop")
           [setattr laptop f_asset_id (VStr "ASSET-0002")]
           (setattr laptop f_status (VStr "In Use"))
           eq_refl ltac:(discriminate) eq_refl eq_refl).
Defined.

(** ** The migration report *)

Lemma dict_set_set {V} (d : list (string * V)) k v w :
  dict_set (dict_set d k v) k w = dict_set d k w.
Proof.
  induction d as [|[k' v'] d IH]; cbn.
  - now rewrite String.eqb_refl.
  - destruct (String.eqb k' k) eqn:E; cbn; rewrite E; [reflexivity|].
    now rewrite IH.
Qed.

Lemma dict_set_keys_nodup {V} (d : list (string * V)) k v :
  NoDup (dict_keys d) -> NoDup (dict_keys (dict_set d k v)).
Proof.
  intros ND. destruct (in_dec string_dec k (dict_keys d)) as [I | N].
  - now rewrite dict_keys_set_old.
  - rewrite dict_keys_set_new by assumption.
    apply NoDup_app; [assumption | repeat constructor; tauto|].
    intros x Hx [<- | []]. contradiction.
Qed.

Lemma dict_get_set {V} (d : list (string * V)) k k' v :
  dict_get (dict_set d k v) k'
  = if String.eqb k k' then Some v else dict_get d k'.
Proof.
  destruct (String.eqb_spec k k') as [<- | N].
  - apply dict_get_set_eq.
  - apply dict_get_set_ne. congruence.
Qed.

(** One round of the loop of the report, on an asset whose strategy is a
    member of the enumeration. *)
Lemma report_round (strategies : list (string * list CampusAsset)) asset d :
  disposal_strategy asset = VStrategy d ->
  (strategy <- enum_value (disposal_strategy asset) ;;
   let strategies' :=
     if dict_contains strategies strategy then strategies
     else dict_set strategies strategy [] in
   match dict_get strategies' strategy with
   | Some group => Ok (dict_set strategies' strategy (group ++ [asset]))
   | None => Raise KeyError
   end)
  = Ok (dict_set strategies (DisposalStrategy_value d)
          (match dict_get strategies (DisposalStrategy_value d) with
           | Some group => group ++ [asset]
           | None => [asset]
           end)).
Proof.
  intros ->. cbn [enum_value bind]. unfold dict_contains.
  destruct (dict_get strategies (DisposalStrategy_value d)) as [g|] eqn:G.
  - now rewrite G.
  - rewrite dict_get_set_eq, dict_set_set. reflexivity.
Qed.

Lemma report_fold
  (f : list (string * list CampusAsset) -> CampusAsset ->
       result (list (string * list CampusAsset)))
  (l : list CampusAsset) :
  (forall acc asset d,
      disposal_strategy asset = VStrategy d ->
      f acc asset
      = Ok (dict_set acc (DisposalStrategy_value d)
              (match dict_get acc (DisposalStrategy_value d) with
               | Some group => group ++ [asset]
               | None => [asset]
               end))) ->
  Forall strategy_current l ->
  forall acc,
    NoDup (dict_keys acc) ->
    exists groups,
      fold_result f l acc = Ok groups
      /\ NoDup (dict_keys groups)
      /\ forall s,
          dict_get groups s
          = match filter (fun asset => String.eqb (strategy_display asset) s)
                    l with
            | [] => dict_get acc s
            | g => Some (match dict_get acc s with
                         | Some g0 => g0
                         | None => []
                         end ++ g)
            end.
Proof.
  intros F. induction 1 as [|asset l (d & _ & Hd) _ IH]; intros acc ND.
  - exists acc. cbn. auto.
  - cbn [fold_result]. rewrite (F acc asset d Hd). cbn [bind].
    edestruct IH as (groups & -> & ND' & G);
      [apply dict_set_keys_nodup; exact ND|].
    exists groups. split; [reflexivity|]. split; [assumption|].
    intros s. rewrite G, dict_get_set. cbn [filter].
    unfold strategy_display at 2, strategy_of. rewrite Hd.
    destruct (String.eqb_spec (DisposalStrategy_value d) s) as [<- | N].
    + destruct (dict_get acc (DisposalStrategy_value d)) as [g0|];
        destruct (filter _ l); cbn [app]; try reflexivity;
        now rewrite <- app_assoc.
    + reflexivity.
Qed.

Section Report.
Variable str_lower : string -> string.
Variable isoformat : datetime -> string.

(** X19.  On an inventory a run can be in, the migration report completes,
    leaves the inventory as it is, and has one group for each display
    string that is the strategy of some asset: the group holds, in the
    order of the map, exactly the assets with that strategy, so no group is
    empty and every asset is in exactly one. *)
Theorem generate_migration_report_groups self :
  reachable str_lower isoformat self ->
  exists groups,
    generate_migration_report self = Ok (groups, self)
    /\ NoDup (dict_keys groups)
    /\ forall s,
        dict_get groups s
        = match filter (fun asset => String.eqb (strategy_display asset) s)
                  (dict_values (assets self)) with
          | [] => None
          | g => Some g
          end.
Proof.
  intros R. pose proof (wf_current _ (reachable_wf _ _ _ R)) as C.
  unfold generate_migration_report.
  edestruct (report_fold _ (dict_values (assets self))
               (fun acc asset d => report_round acc asset d) C []
               (NoDup_nil _)) as (groups & E & ND & G).
  exists groups. split.
  { match type of E with
    | fold_result ?f ?l ?a = _ =>
        change (bind (fold_result f l a)
                  (fun strategies => Ok (strategies, self))
                = Ok (groups, self))
    end.
    now rewrite E. }
  split; [assumption|].
  intros s. rewrite G. now destruct (filter _ _).
Qed.
End Report.

Lemma generate_migration_report_witness :
  reachable lower_ascii isoformat_decimal one_laptop
  /\ generate_migration_report one_laptop
     = Ok ([("Relocate to Permanent Campus", [laptop])], one_laptop).
Proof.
  split; [exact one_laptop_reachable|].
  destruct (generate_migration_report_groups lower_ascii isoformat_decimal
              one_laptop one_laptop_reachable) as (groups & E & _).
  reflexivity.
Defined.

(** ** The marketplace listing and the flat record *)

Lemma show_lookup_inv (d : list (string * CampusAsset)) (l : list value) :
  (forall shown,
      map_result
        (fun item_id =>
           match item_id with
           | VStr k =>
               match dict_get d k with
               | Some asset => Ok asset
               | None => Raise KeyError
               end
           | _ => Raise KeyError
           end) l = Ok shown ->
      Forall2 (fun item_id asset =>
                 exists k, item_id = VStr k /\ dict_get d k = Some asset)
        l shown)
  /\ (forall e,
         map_result
           (fun item_id =>
              match item_id with
              | VStr k =>
                  match dict_get d k with
                  | Some asset => Ok asset
                  | None => Raise KeyError
                  end
              | _ => Raise KeyError
              end) l = Raise e ->
         e = KeyError
         /\ Exists (fun item_id =>
                      forall k, item_id = VStr k -> dict_get d k = None) l).
Proof.
  induction l as [|v l [IHok IHraise]]; cbn [map_result].
  - split; [intros shown [= <-]; constructor | discriminate].
  - destruct v as [| | | |k| |]; cbn [bind];
      try (split; [discriminate|];
           intros e [= <-]; split; [reflexivity|]; left; discriminate).
    destruct (dict_get d k) as [asset|] eqn:G; cbn [bind].
    + destruct (map_result _ l) as [ys|e'|] eqn:M; cbn [bind].
      * split; [|discriminate]. intros shown [= <-].
        constructor; [eauto | now apply IHok].
      * split; [discriminate|]. intros e [= <-].
        destruct (IHraise e' eq_refl) as (-> & Ex).
        split; [reflexivity | now right].
      * split; discriminate.
    + split; [discriminate|]. intros e [= <-].
      split; [reflexivity|]. left. now intros k' [= <-].
Qed.

(** X20.  A completed [show_marketplace] leaves the inventory as it is and
    shows, in the order of the index, the asset stored under each listed
    identifier; the call raises only a KeyError, and only when some listed
    identifier is no key of the asset map. *)
Theorem show_marketplace_lists_stored self :
  (forall shown self',
      show_marketplace self = Ok (shown, self') ->
      self' = self
      /\ Forall2 (fun item_id asset =>
                    exists k, item_id = VStr k
                              /\ dict_get (assets self) k = Some asset)
           (marketplace_items self) shown)
  /\ (forall e,
         show_marketplace self = Raise e ->
         e = KeyError
         /\ Exists (fun item_id =>
                      forall k, item_id = VStr k ->
                                dict_get (assets self) k = None)
              (marketplace_items self)).
Proof.
  destruct (show_lookup_inv (assets self) (marketplace_items self))
    as [Hok Hraise].
  unfold show_marketplace, bind.
  destruct (map_result _ (marketplace_items self)) as [ys|e'|] eqn:M.
  - split; [|discriminate]. intros shown self' [= <- <-].
    split; [reflexivity | now apply Hok].
  - split; [discriminate|]. intros e [= <-]. now apply Hraise.
  - split; discriminate.
Qed.

Lemma DisposalStrategy_value_inj d e :
  DisposalStrategy_value d = DisposalStrategy_value e -> d = e.
Proof. destruct d, e; cbn; intros H; try reflexivity; discriminate H. Qed.

(** X21.  The flat record [to_dict] builds determines every attribute of
    the asset except [last_used]: two assets with the same record differ
    at most in that stamp, the display strings of the six strategies being
    pairwise different; and [to_dict] raises an AttributeError exactly when
    the stored strategy is no member of the enumeration. *)
Theorem to_dict_determines_attributes :
  (forall a1 a2 d,
      to_dict a1 = Ok d -> to_dict a2 = Ok d ->
      forall f, f <> f_last_used -> getattr a1 f = getattr a2 f)
  /\ (forall d e, DisposalStrategy_value d = DisposalStrategy_value e -> d = e)
  /\ (forall asset,
         (exists e, to_dict asset = Raise e)
         <-> (forall d, disposal_strategy asset <> VStrategy d))
  /\ (forall asset e, to_dict asset = Raise e -> e = AttributeError).
Proof.
  split; [|split; [exact DisposalStrategy_value_inj|split]].
  - intros a1 a2 d H1 H2 f N. unfold to_dict in H1, H2.
    destruct a1 as [i1 n1 m1 c1 g1 b1 r1 h1 s1 l1 u1 d1],
             a2 as [i2 n2 m2 c2 g2 b2 r2 h2 s2 l2 u2 d2].
    cbn [disposal_strategy asset_id name model category age_years
           battery_health can_refurbish is_hazardous status location]
      in H1, H2.
    destruct d1; try discriminate H1. destruct d2; try discriminate H2.
    cbn [enum_value bind] in H1, H2. rewrite <- H2 in H1.
    injection H1 as -> -> -> -> -> -> -> -> -> -> E.
    apply DisposalStrategy_value_inj in E. subst.
    destruct f; cbn; congruence.
  - intros asset. unfold to_dict.
    destruct (disposal_strategy asset) eqn:D; cbn [enum_value bind];
      (split; [intros [e H]; try discriminate H; congruence
              | intros H; try (eexists; reflexivity);
                exfalso; eapply H; reflexivity]).
  - intros asset e. unfold to_dict.
    destruct (disposal_strategy asset); cbn [enum_value bind];
      intros H; try discriminate H; now injection H.
Qed.

Section CaseInsensitive.
Variable str_lower : string -> string.

Lemma dormant_matches_lower n1 n2 device_category l :
  str_lower n1 = str_lower n2 ->
  dormant_matches str_lower n1 device_category l
  = dormant_matches str_lower n2 device_category l.
Proof.
  intros E. induction l as [|asset l IH]; [reflexivity|].
  cbn [dormant_matches]. now rewrite IH, E.
Qed.

(** X22.  The procurement check looks at the device name only through its
    lower-cased form: two device names that agree up to case get the same
    answer on every inventory. *)
Theorem check_procurement_prevention_ignores_case n1 n2 device_category
  self :
  str_lower n1 = str_lower n2 ->
  check_procurement_prevention str_lower n1 device_category self
  = check_procurement_prevention str_lower n2 device_category self.
Proof.
  intros E. unfold check_procurement_prevention.
  now rewrite (dormant_matches_lower n1 n2 device_category _ E).
Qed.
End CaseInsensitive.

Lemma check_procurement_prevention_ignores_case_witness :
  check_procurement_prevention lower_ascii "LAPTOP" (VStr "Laptop")
    one_laptop
  = check_procurement_prevention lower_ascii "laptop" (VStr "Laptop")
      one_laptop.
Proof.
  exact (check_procurement_prevention_ignores_case lower_ascii "LAPTOP"
           "laptop" (VStr "Laptop") one_laptop eq_refl).
Defined.

(** ** The order of the map *)

Lemma StronglySorted_snoc (ns : list Z) n :
  StronglySorted Z.lt ns -> Forall (fun i => i < n) ns ->
  StronglySorted Z.lt (ns ++ [n]).
Proof.
  induction 1 as [|i ns S IH F]; intros B; cbn.
  - repeat constructor.
  - inversion B; subst. constructor; [auto|].
    apply Forall_app. split; [assumption | repeat constructor; assumption].
Qed.

Lemma dict_del_counters {V} (d : list (string * V)) k (P : Z -> Prop) :
  forall ns,
    dict_keys d = map (fun n => ("ASSET-" ++ format_04d n)%string) ns ->
    StronglySorted Z.lt ns ->
    Forall P ns ->
    exists ns',
      dict_keys (dict_del d k)
      = map (fun n => ("ASSET-" ++ format_04d n)%string) ns'
      /\ StronglySorted Z.lt ns'
      /\ Forall P ns'
      /\ incl ns' ns.
Proof.
  unfold dict_keys.
  induction d as [|[k0 v0] d IH]; intros ns E S F.
  - exists ns. cbn. auto using incl_refl.
  - destruct ns as [|n ns]; [discriminate|]. cbn in E. injection E as E0 E.
    inversion S as [|? ? S' L]; subst. inversion F as [|? ? Pn F']; subst.
    cbn [dict_del]. destruct (String.eqb _ k).
    + exists ns. repeat split; auto using incl_tl, incl_refl.
    + destruct (IH ns E S' F') as (ns' & E' & S'' & F'' & I).
      exists (n :: ns'). cbn [map fst]. rewrite E'.
      split; [reflexivity|]. split; [|split].
      * constructor; [assumption|]. rewrite Forall_forall in L |- *.
        intros x Hx. apply L, I, Hx.
      * constructor; assumption.
      * intros x [<- | Hx]; [now left | right; now apply I].
Qed.

Section MapOrder.
Variable str_lower : string -> string.
Variable isoformat : datetime -> string.

(** X23.  In every inventory a run can be in, the keys of the asset map
    are identifiers of counter values from 1 up to below the current
    counter, standing in increasing order of their counter, so the map
    lists the assets in the order they were added; and the components
    library is empty. *)
Theorem assets_in_order_of_creation self :
  reachable str_lower isoformat self ->
  components_library self = []
  /\ exists ns,
      dict_keys (assets self)
      = map (fun n => ("ASSET-" ++ format_04d n)%string) ns
      /\ StronglySorted Z.lt ns
      /\ Forall (fun n => 1 <= n < next_id self) ns.
Proof.
  induction 1 as [|q self r self' R (C & ns & K & S & B) P].
  { split; [reflexivity|]. exists []. repeat constructor. }
  pose proof (reachable_wf _ _ _ R) as W.
  destruct (read_only q) eqn:RO.
  { rewrite (perform_read_only _ _ q self r self' RO P). eauto. }
  destruct q; try discriminate;
    apply answer_inv in P; destruct P as (x & P & _).
  - apply add_asset_inv in P. destruct P as (asset & Eid & _ & ->).
    pose proof (fresh_key self W) as F. rewrite <- Eid in F.
    unfold _process_asset.
    destruct (py_eq _ _); cbn [assets next_id components_library];
      (split; [assumption|]);
      exists (ns ++ [next_id self]);
      rewrite dict_keys_set_new, K, map_app, Eid by assumption;
      (split; [reflexivity|]); (split;
       [apply StronglySorted_snoc; [assumption|];
        eapply Forall_impl; [|exact B]; cbn; intros; lia
       |apply Forall_app; split;
        [eapply Forall_impl; [|exact B]; cbn; intros; lia
        |repeat constructor; pose proof (wf_next_id _ W); lia]]).
  - apply update_asset_inv in P.
    destruct P as [(_ & -> & _) | (_ & asset & asset1 & d & G & _ & _ & ->)];
      [eauto|].
    cbn [assets next_id components_library]. split; [assumption|].
    exists ns. rewrite dict_keys_set_old by eauto using dict_get_key. auto.
  - unfold delete_asset in P.
    destruct (dict_contains (assets self) asset_id0);
      [|injection P as <- <-; eauto].
    cbn [assets next_id marketplace_items components_library] in P.
    destruct (dict_del_counters (assets self) asset_id0 _ ns K S B)
      as (ns' & K' & S' & B' & _).
    destruct (list_contains _ _); injection P as <- <-;
      cbn [assets next_id components_library]; eauto.
Qed.
End MapOrder.

Lemma assets_in_order_of_creation_witness :
  reachable lower_ascii isoformat_decimal one_laptop
  /\ components_library one_laptop = []
  /\ exists ns,
      dict_keys (assets one_laptop)
      = map (fun n => ("ASSET-" ++ format_04d n)%string) ns
      /\ StronglySorted Z.lt ns
      /\ Forall (fun n => 1 <= n < next_id one_laptop) ns.
Proof.
  split; [exact one_laptop_reachable|].
  exact (assets_in_order_of_creation lower_ascii isoformat_decimal
           one_laptop one_laptop_reachable).
Defined.
